(** * SceneManager: texture registry, material table and transform composer

    A shallow embedding of [Source/SceneManager.cpp] (CS-330 desk scene) and
    the properties of its texture registry, material lookup and model-matrix
    composition.

    Layout of the development:
    - [glm]: the parts of the GLM template library the scene manager calls
      (vectors, 4x4 matrices, [scale], [rotate], [translate], [radians]),
      generic in the scalar type as the C++ templates are;
    - [Scene]: the state of a [SceneManager] object together with the
      collaborators it talks to (shader manager, mesh library, GL context,
      console), an error/state monad for its methods, and the methods
      themselves;
    - the theorems about them. *)

From Stdlib Require Import ZArith QArith Reals Lia Lra Ring.
From stdpp Require Import base list strings.
From Equations Require Import Equations.

Local Open Scope Z_scope.

(* ===================================================================== *)
(** * Scalars *)
(* ===================================================================== *)

(** GLM is a third-party template library over its scalar type [T]
    ([float] throughout the scene manager).  The operations the templates use are collected in a
    class, so that nothing below depends on how [T] rounds.  [lit q] is the
    value a decimal literal such as [1.8f] denotes. *)
Class Scalar (T : Type) := {
  lit  : Q -> T;
  add  : T -> T -> T;
  sub  : T -> T -> T;
  mul  : T -> T -> T;
  div  : T -> T -> T;
  sqrt : T -> T;
  cos  : T -> T;
  sin  : T -> T
}.

Declare Scope scalar_scope.
Delimit Scope scalar_scope with sc.
Infix "+" := add : scalar_scope.
Infix "-" := sub : scalar_scope.
Infix "*" := mul : scalar_scope.
Infix "/" := div : scalar_scope.

(** The arithmetic facts about the constants [0] and [1] that the identity
    transform relies on.  Each of them holds for IEEE-754 arithmetic as well
    as for exact arithmetic; none of them is a general ring law. *)
Class UnitArith (T : Type) `{Scalar T} : Prop := {
  add_0_0 : (lit 0 + lit 0)%sc = lit 0;
  add_0_1 : (lit 0 + lit 1)%sc = lit 1;
  add_1_0 : (lit 1 + lit 0)%sc = lit 1;
  sub_0_0 : (lit 0 - lit 0)%sc = lit 0;
  sub_1_1 : (lit 1 - lit 1)%sc = lit 0;
  mul_0_0 : (lit 0 * lit 0)%sc = lit 0;
  mul_0_1 : (lit 0 * lit 1)%sc = lit 0;
  mul_1_0 : (lit 1 * lit 0)%sc = lit 0;
  mul_1_1 : (lit 1 * lit 1)%sc = lit 1;
  div_1_1 : (lit 1 / lit 1)%sc = lit 1;
  sqrt_1  : sqrt (lit 1) = lit 1;
  cos_0   : cos (lit 0) = lit 1;
  sin_0   : sin (lit 0) = lit 0;
  mul_0_deg : (lit 0 * lit 0.01745329251994329576923690768489)%sc = lit 0
}.

(* ===================================================================== *)
(** * The GLM operations used by the scene manager *)
(* ===================================================================== *)

(** The definitions follow GLM's own templates ([type_mat4x4.inl],
    [ext/matrix_transform.inl], [gtx/transform.inl], [trigonometric.inl]);
    the library is a dependency of the repository, not part of it. *)
Module glm.
Section Templates.
Context {T : Type} `{Scalar T}.
Local Open Scope scalar_scope.

Record vec2 := Vec2 { x2 : T; y2 : T }.
Record vec3 := Vec3 { x3 : T; y3 : T; z3 : T }.
Record vec4 := Vec4 { x4 : T; y4 : T; z4 : T; w4 : T }.

(** [mat<4,4,T>] is stored by columns: [m[j]] is column [j]. *)
Record mat4 := Mat4 { col0 : vec4; col1 : vec4; col2 : vec4; col3 : vec4 }.

(** [vec4 * T], [vec4 + vec4]: componentwise. *)
Definition vec4_scale (v : vec4) (s : T) : vec4 :=
  Vec4 (x4 v * s) (y4 v * s) (z4 v * s) (w4 v * s).
Definition vec4_add (a b : vec4) : vec4 :=
  Vec4 (x4 a + x4 b) (y4 a + y4 b) (z4 a + z4 b) (w4 a + w4 b).

(** [vec3 * T] and [T * vec3]. *)
Definition vec3_scale (v : vec3) (s : T) : vec3 :=
  Vec3 (x3 v * s) (y3 v * s) (z3 v * s).
Definition scalar_vec3 (s : T) (v : vec3) : vec3 :=
  Vec3 (s * x3 v) (s * y3 v) (s * z3 v).

(** [dot(a, b)]: [tmp = a * b; return tmp.x + tmp.y + tmp.z]. *)
Definition dot (a b : vec3) : T :=
  x3 a * x3 b + y3 a * y3 b + z3 a * z3 b.

(** [inversesqrt(x) = T(1) / sqrt(x)];
    [normalize(v) = v * inversesqrt(dot(v, v))]. *)
Definition inversesqrt (x : T) : T := lit 1 / sqrt x.
Definition normalize (v : vec3) : vec3 := vec3_scale v (inversesqrt (dot v v)).

(** [radians(degrees) = degrees * T(0.01745329251994329576923690768489)]. *)
Definition radians (degrees : T) : T :=
  degrees * lit 0.01745329251994329576923690768489.

(** [mat4(T(1))]: ones on the diagonal, zeros elsewhere. *)
Definition mat4_diag (d : T) : mat4 :=
  Mat4 (Vec4 d (lit 0) (lit 0) (lit 0))
       (Vec4 (lit 0) d (lit 0) (lit 0))
       (Vec4 (lit 0) (lit 0) d (lit 0))
       (Vec4 (lit 0) (lit 0) (lit 0) d).
Definition identity : mat4 := mat4_diag (lit 1).

(** [operator*(mat4, mat4)]: column [j] of the result is the combination
    of the columns of [m1] weighted by column [j] of [m2]. *)
Definition mat4_mul_col (m1 : mat4) (b : vec4) : vec4 :=
  vec4_add (vec4_add (vec4_add (vec4_scale (col0 m1) (x4 b))
                               (vec4_scale (col1 m1) (y4 b)))
                     (vec4_scale (col2 m1) (z4 b)))
           (vec4_scale (col3 m1) (w4 b)).
Definition mat4_mul (m1 m2 : mat4) : mat4 :=
  Mat4 (mat4_mul_col m1 (col0 m2)) (mat4_mul_col m1 (col1 m2))
       (mat4_mul_col m1 (col2 m2)) (mat4_mul_col m1 (col3 m2)).

(** [translate(m, v)]: [Result = m;
    Result[3] = m[0]*v[0] + m[1]*v[1] + m[2]*v[2] + m[3]]. *)
Definition translate_m (m : mat4) (v : vec3) : mat4 :=
  Mat4 (col0 m) (col1 m) (col2 m)
       (vec4_add (vec4_add (vec4_add (vec4_scale (col0 m) (x3 v))
                                     (vec4_scale (col1 m) (y3 v)))
                           (vec4_scale (col2 m) (z3 v)))
                 (col3 m)).

(** [scale(m, v)]: the first three columns scaled, the fourth kept. *)
Definition scale_m (m : mat4) (v : vec3) : mat4 :=
  Mat4 (vec4_scale (col0 m) (x3 v)) (vec4_scale (col1 m) (y3 v))
       (vec4_scale (col2 m) (z3 v)) (col3 m).

(** [rotate(m, angle, v)]: the axis-angle rotation, [angle] in radians. *)
Definition rotate_m (m : mat4) (angle : T) (v : vec3) : mat4 :=
  let a := angle in
  let c := cos a in
  let s := sin a in
  let axis := normalize v in
  let temp := scalar_vec3 (lit 1 - c) axis in
  let r00 := c + x3 temp * x3 axis in
  let r01 := x3 temp * y3 axis + s * z3 axis in
  let r02 := x3 temp * z3 axis - s * y3 axis in
  let r10 := y3 temp * x3 axis - s * z3 axis in
  let r11 := c + y3 temp * y3 axis in
  let r12 := y3 temp * z3 axis + s * x3 axis in
  let r20 := z3 temp * x3 axis + s * y3 axis in
  let r21 := z3 temp * y3 axis - s * x3 axis in
  let r22 := c + z3 temp * z3 axis in
  Mat4
    (vec4_add (vec4_add (vec4_scale (col0 m) r00) (vec4_scale (col1 m) r01))
              (vec4_scale (col2 m) r02))
    (vec4_add (vec4_add (vec4_scale (col0 m) r10) (vec4_scale (col1 m) r11))
              (vec4_scale (col2 m) r12))
    (vec4_add (vec4_add (vec4_scale (col0 m) r20) (vec4_scale (col1 m) r21))
              (vec4_scale (col2 m) r22))
    (col3 m).

(** The one-argument forms of [<glm/gtx/transform.hpp>], which start from
    the identity matrix. *)
Definition translate (v : vec3) : mat4 := translate_m identity v.
Definition rotate (angle : T) (v : vec3) : mat4 := rotate_m identity angle v.
Definition scale (v : vec3) : mat4 := scale_m identity v.

End Templates.
Arguments vec2 T : clear implicits.
Arguments vec3 T : clear implicits.
Arguments vec4 T : clear implicits.
Arguments mat4 T : clear implicits.
End glm.

(* ===================================================================== *)
(** * The scene manager *)
(* ===================================================================== *)

(** Pattern matching that keeps the equation of the scrutinee, for the
    termination arguments of the [while] loops. *)
Definition inspect {A : Type} (x : A) : { y : A | x = y } := exist _ x eq_refl.

(** [std::string::compare]: negative, zero or positive; zero exactly for
    equal strings. *)
Definition string_compare (a b : string) : Z :=
  match String.compare a b with Eq => 0 | Lt => -1 | Gt => 1 end.

Module Scene.
Section SceneManager.
Context {T : Type} `{Scalar T}.

(** ** Collaborators *)

(** What [stbi_load] hands back for a file it can decode. *)
Record stbi_image := {
  width : Z;
  height : Z;
  colorChannels : Z;
  pixels : list Byte.byte
}.

(** The image decoder: [stbi_load flip filename], where [flip] is the flag
    set by [stbi_set_flip_vertically_on_load]; [None] is the null pointer
    returned for a file that cannot be read or decoded. *)
Variable stbi_load : bool -> string -> option stbi_image.

Inductive GLenum :=
| GL_TEXTURE_2D | GL_TEXTURE_WRAP_S | GL_TEXTURE_WRAP_T
| GL_TEXTURE_MIN_FILTER | GL_TEXTURE_MAG_FILTER | GL_REPEAT | GL_LINEAR
| GL_RGB8 | GL_RGB | GL_RGBA8 | GL_RGBA | GL_UNSIGNED_BYTE.

(** The calls issued to the GL context, in program order.
    [glGenTextures n name] records the name the driver returned;
    [glActiveTexture i] stands for [glActiveTexture(GL_TEXTURE0 + i)]. *)
Inductive gl_call :=
| glGenTextures (n : Z) (name : Z)
| glBindTexture (target : GLenum) (texture : Z)
| glTexParameteri (target pname param : GLenum)
| glTexImage2D (target : GLenum) (level : Z) (internalformat : GLenum)
               (w h border : Z) (format type : GLenum)
               (data : list Byte.byte)
| glGenerateMipmap (target : GLenum)
| glActiveTexture (i : Z).

(** The texture name the driver picks, given the calls it has seen. *)
Variable gl_fresh_name : list gl_call -> Z.

(** The uniform setters of the shader manager. *)
Inductive shader_call :=
| setMat4Value (name : string) (m : glm.mat4 T)
| setIntValue (name : string) (v : Z)
| setBoolValue (name : string) (b : bool)
| setFloatValue (name : string) (v : T)
| setVec2Value (name : string) (v : glm.vec2 T)
| setVec3Value (name : string) (v : glm.vec3 T)
| setVec4Value (name : string) (v : glm.vec4 T)
| setSampler2DValue (name : string) (slot : Z).

(** The calls to the basic-shapes library. *)
Inductive mesh_call :=
| LoadPlaneMesh | LoadPrismMesh | LoadBoxMesh | LoadCylinderMesh
| LoadConeMesh | LoadTorusMesh | LoadBoxMesh2
| DrawPlaneMesh | DrawBoxMesh | DrawCylinderMesh | DrawConeMesh
| DrawTorusMesh | DrawBoxMesh2.

(** The lines written to [std::cout]. *)
Inductive console_line :=
| LoadedImage (filename : string) (w h channels : Z)
| UnsupportedChannels (channels : Z)
| CouldNotLoad (filename : string).

(** ** Data *)

(** Modelled from the spec: [TEXTURE_INFO] is declared in [SceneManager.h],
    which is not among the sources.  A texture entry is a tag and a GPU
    handle, the two fields the constructor and [CreateGLTexture] assign. *)
Record TEXTURE_INFO := { tag : string; ID : Z }.

(** Modelled from the spec: [OBJECT_MATERIAL] is declared in
    [SceneManager.h] as well.  A material entry is a tag, three colour
    vectors and two scalars, the six fields [DefineObjectMaterials]
    assigns. *)
Record OBJECT_MATERIAL := {
  ambientStrength : T;
  ambientColor : glm.vec3 T;
  diffuseColor : glm.vec3 T;
  specularColor : glm.vec3 T;
  shininess : T;
  material_tag : string
}.

(** Modelled from the spec: the texture array has a fixed capacity of 16,
    the bound of the constructor's initialisation loop. *)
Definition TEXTURE_CAPACITY : Z := 16.

(** Modelled from the spec: the class is declared in [SceneManager.h]; the
    members are those the methods use.  They are followed by the state of
    the world the methods act on.  A pointer member is [None] when null and
    otherwise holds the log of calls its pointee has received. *)
Record SceneManager := {
  m_pShaderManager : option (list shader_call);
  m_basicMeshes : list mesh_call;
  m_loadedTextures : Z;
  m_textureIDs : list TEXTURE_INFO;
  m_objectMaterials : list OBJECT_MATERIAL;
  gl_context : list gl_call;
  console : list console_line
}.

Definition set_pShaderManager v (s : SceneManager) : SceneManager :=
  {| m_pShaderManager := v; m_basicMeshes := m_basicMeshes s;
     m_loadedTextures := m_loadedTextures s; m_textureIDs := m_textureIDs s;
     m_objectMaterials := m_objectMaterials s;
     gl_context := gl_context s; console := console s |}.
Definition set_basicMeshes v (s : SceneManager) : SceneManager :=
  {| m_pShaderManager := m_pShaderManager s; m_basicMeshes := v;
     m_loadedTextures := m_loadedTextures s; m_textureIDs := m_textureIDs s;
     m_objectMaterials := m_objectMaterials s;
     gl_context := gl_context s; console := console s |}.
Definition set_loadedTextures v (s : SceneManager) : SceneManager :=
  {| m_pShaderManager := m_pShaderManager s; m_basicMeshes := m_basicMeshes s;
     m_loadedTextures := v; m_textureIDs := m_textureIDs s;
     m_objectMaterials := m_objectMaterials s;
     gl_context := gl_context s; console := console s |}.
Definition set_textureIDs v (s : SceneManager) : SceneManager :=
  {| m_pShaderManager := m_pShaderManager s; m_basicMeshes := m_basicMeshes s;
     m_loadedTextures := m_loadedTextures s; m_textureIDs := v;
     m_objectMaterials := m_objectMaterials s;
     gl_context := gl_context s; console := console s |}.
Definition set_objectMaterials v (s : SceneManager) : SceneManager :=
  {| m_pShaderManager := m_pShaderManager s; m_basicMeshes := m_basicMeshes s;
     m_loadedTextures := m_loadedTextures s; m_textureIDs := m_textureIDs s;
     m_objectMaterials := v;
     gl_context := gl_context s; console := console s |}.
Definition set_gl_context v (s : SceneManager) : SceneManager :=
  {| m_pShaderManager := m_pShaderManager s; m_basicMeshes := m_basicMeshes s;
     m_loadedTextures := m_loadedTextures s; m_textureIDs := m_textureIDs s;
     m_objectMaterials := m_objectMaterials s;
     gl_context := v; console := console s |}.
Definition set_console v (s : SceneManager) : SceneManager :=
  {| m_pShaderManager := m_pShaderManager s; m_basicMeshes := m_basicMeshes s;
     m_loadedTextures := m_loadedTextures s; m_textureIDs := m_textureIDs s;
     m_objectMaterials := m_objectMaterials s;
     gl_context := gl_context s; console := v |}.

(** ** Methods as state transformers

    A method either returns a value and the next state, or has no defined
    behaviour ([None]): an access outside the texture array, or a call
    through a null shader-manager pointer. *)
Definition M (A : Type) : Type := SceneManager -> option (A * SceneManager).

Definition ret {A} (a : A) : M A := fun s => Some (a, s).
Definition bind {A B} (m : M A) (f : A -> M B) : M B :=
  fun s => match m s with
           | Some (a, s') => f a s'
           | None => None
           end.
Definition gets {A} (f : SceneManager -> A) : M A := fun s => Some (f s, s).
Definition modify (f : SceneManager -> SceneManager) : M unit :=
  fun s => Some (tt, f s).

Declare Scope scene_scope.
Delimit Scope scene_scope with scene.
Bind Scope scene_scope with M.
Notation "x <- c1 ;; c2" := (bind c1 (fun x => c2))
  (at level 100, c1 at next level, c2 at level 200, right associativity)
  : scene_scope.
Notation "c1 ;; c2" := (bind c1 (fun _ => c2))
  (at level 100, c2 at level 200, right associativity) : scene_scope.
Local Open Scope scene_scope.

(** [for (int i = 0; i < n; i++) body(i)], for a bound the body does not
    change. *)
Fixpoint for_from (i : Z) (iterations : nat) (body : Z -> M unit) : M unit :=
  match iterations with
  | O => ret tt
  | S k => body i ;; for_from (i + 1) k body
  end.
Definition for_upto (n : Z) (body : Z -> M unit) : M unit :=
  for_from 0 (Z.to_nat n) body.

(** [m_textureIDs[i]], read and written in place. *)
Definition in_texture_array (i : Z) : bool :=
  (0 <=? i) && (i <? TEXTURE_CAPACITY).
Definition array_read (arr : list TEXTURE_INFO) (i : Z) : option TEXTURE_INFO :=
  if in_texture_array i then arr !! Z.to_nat i else None.
Definition read_texture (i : Z) : M TEXTURE_INFO :=
  fun s => match array_read (m_textureIDs s) i with
           | Some e => Some (e, s)
           | None => None
           end.
Definition write_texture (i : Z) (f : TEXTURE_INFO -> TEXTURE_INFO) : M unit :=
  fun s => if in_texture_array i
           then Some (tt, set_textureIDs (alter f (Z.to_nat i) (m_textureIDs s)) s)
           else None.
Definition with_ID (v : Z) (e : TEXTURE_INFO) : TEXTURE_INFO :=
  {| tag := tag e; ID := v |}.
Definition with_tag (v : string) (e : TEXTURE_INFO) : TEXTURE_INFO :=
  {| tag := v; ID := ID e |}.

(** Calls on the collaborators. *)
Definition shader (c : shader_call) : M unit :=
  fun s => match m_pShaderManager s with
           | Some log => Some (tt, set_pShaderManager (Some (log ++ [c])) s)
           | None => None
           end.
Definition mesh (c : mesh_call) : M unit :=
  modify (fun s => set_basicMeshes (m_basicMeshes s ++ [c]) s).
Definition gl (c : gl_call) : M unit :=
  modify (fun s => set_gl_context (gl_context s ++ [c]) s).
Definition cout (l : console_line) : M unit :=
  modify (fun s => set_console (console s ++ [l]) s).
Definition gen_texture : M Z :=
  fun s => let name := gl_fresh_name (gl_context s) in
           Some (name, set_gl_context (gl_context s ++ [glGenTextures 1 name]) s).

(** The names of the uniforms. *)
Definition g_ModelName : string := "model".
Definition g_ColorValueName : string := "objectColor".
Definition g_TextureValueName : string := "objectTexture".
Definition g_UseTextureName : string := "bUseTexture".
Definition g_UseLightingName : string := "bUseLighting".

(** *** [SceneManager::SceneManager]

    The object is created in a world given by the GL context and the
    console; the declared type of [ID] is in the header, which is not part
    of the sources, and the initial value is kept as the literal the
    constructor assigns. *)
Definition new_SceneManager (pShaderManager : option (list shader_call))
    (context : list gl_call) (out : list console_line) : SceneManager :=
  {| m_pShaderManager := pShaderManager;
     m_basicMeshes := [];
     m_loadedTextures := 0;
     m_textureIDs := replicate 16 {| tag := "/0"; ID := -1 |};
     m_objectMaterials := [];
     gl_context := context;
     console := out |}.

(** *** [SceneManager::CreateGLTexture]

    [register] is the tail of the method shared by the RGB and the RGBA
    branch: mipmaps, unbinding, and the three writes that enter the texture
    in the registry.  Releasing the decoded buffer ([stbi_image_free]) has no
    effect on the state modelled here. *)
Definition CreateGLTexture (filename : string) (tg : string) : M bool :=
  let image := stbi_load true filename in
  match image with
  | Some img =>
      let width := width img in
      let height := height img in
      let colorChannels := colorChannels img in
      let register (textureID : Z) : M bool :=
        gl (glGenerateMipmap GL_TEXTURE_2D) ;;
        gl (glBindTexture GL_TEXTURE_2D 0) ;;
        n <- gets m_loadedTextures ;;
        write_texture n (with_ID textureID) ;;
        n <- gets m_loadedTextures ;;
        write_texture n (with_tag tg) ;;
        modify (fun s => set_loadedTextures (m_loadedTextures s + 1) s) ;;
        ret true in
      cout (LoadedImage filename width height colorChannels) ;;
      textureID <- gen_texture ;;
      gl (glBindTexture GL_TEXTURE_2D textureID) ;;
      gl (glTexParameteri GL_TEXTURE_2D GL_TEXTURE_WRAP_S GL_REPEAT) ;;
      gl (glTexParameteri GL_TEXTURE_2D GL_TEXTURE_WRAP_T GL_REPEAT) ;;
      gl (glTexParameteri GL_TEXTURE_2D GL_TEXTURE_MIN_FILTER GL_LINEAR) ;;
      gl (glTexParameteri GL_TEXTURE_2D GL_TEXTURE_MAG_FILTER GL_LINEAR) ;;
      if colorChannels =? 3 then
        gl (glTexImage2D GL_TEXTURE_2D 0 GL_RGB8 width height 0
                         GL_RGB GL_UNSIGNED_BYTE (pixels img)) ;;
        register textureID
      else if colorChannels =? 4 then
        gl (glTexImage2D GL_TEXTURE_2D 0 GL_RGBA8 width height 0
                         GL_RGBA GL_UNSIGNED_BYTE (pixels img)) ;;
        register textureID
      else
        cout (UnsupportedChannels colorChannels) ;;
        ret false
  | None =>
      cout (CouldNotLoad filename) ;;
      ret false
  end.

(** *** [SceneManager::BindGLTextures] *)
Definition BindGLTextures : M unit :=
  n <- gets m_loadedTextures ;;
  for_upto n (fun i =>
    gl (glActiveTexture i) ;;
    e <- read_texture i ;;
    gl (glBindTexture GL_TEXTURE_2D (ID e))).

(** *** [SceneManager::DestroyGLTextures] *)
Definition DestroyGLTextures : M unit :=
  n <- gets m_loadedTextures ;;
  for_upto n (fun i =>
    name <- gen_texture ;;
    write_texture i (with_ID name)).

(** *** [SceneManager::FindTextureID], [SceneManager::FindTextureSlot]

    The two [while] loops, over the loop variables of the source.  They
    end because each round either sets [bFound] or moves [index] towards
    [m_loadedTextures]. *)
Definition loop_measure (bound index : Z) (bFound : bool) : nat :=
  if bFound then 0%nat else S (Z.to_nat (bound - index)).

Equations? FindTextureID_loop (arr : list TEXTURE_INFO) (loaded : Z)
    (tg : string) (textureID index : Z) (bFound : bool) : option Z
    by wf (loop_measure loaded index bFound) lt :=
  FindTextureID_loop arr loaded tg textureID index bFound
    with inspect ((index <? loaded) && Bool.eqb bFound false) := {
    | exist _ true Hc :=
        match array_read arr index with
        | None => None
        | Some e =>
            if string_compare (tag e) tg =? 0
            then FindTextureID_loop arr loaded tg (ID e) index true
            else FindTextureID_loop arr loaded tg textureID (index + 1) bFound
        end
    | exist _ false Hc := Some textureID }.
Proof.
  all: apply andb_prop in Hc as [Hi Hb]; destruct bFound; try discriminate;
    unfold loop_measure; lia.
Qed.

Equations? FindTextureSlot_loop (arr : list TEXTURE_INFO) (loaded : Z)
    (tg : string) (textureSlot index : Z) (bFound : bool) : option Z
    by wf (loop_measure loaded index bFound) lt :=
  FindTextureSlot_loop arr loaded tg textureSlot index bFound
    with inspect ((index <? loaded) && Bool.eqb bFound false) := {
    | exist _ true Hc :=
        match array_read arr index with
        | None => None
        | Some e =>
            if string_compare (tag e) tg =? 0
            then FindTextureSlot_loop arr loaded tg index index true
            else FindTextureSlot_loop arr loaded tg textureSlot (index + 1) bFound
        end
    | exist _ false Hc := Some textureSlot }.
Proof.
  all: apply andb_prop in Hc as [Hi Hb]; destruct bFound; try discriminate;
    unfold loop_measure; lia.
Qed.

Definition lift_read {A} (r : SceneManager -> option A) : M A :=
  fun s => match r s with Some a => Some (a, s) | None => None end.

Definition FindTextureID (tg : string) : M Z :=
  lift_read (fun s =>
    FindTextureID_loop (m_textureIDs s) (m_loadedTextures s) tg (-1) 0 false).

Definition FindTextureSlot (tg : string) : M Z :=
  lift_read (fun s =>
    FindTextureSlot_loop (m_textureIDs s) (m_loadedTextures s) tg (-1) 0 false).


(** *** [SceneManager::FindMaterial]

    [material] is the caller's object, passed by reference; the loop returns
    its final contents.  [index] is unsigned and stays below the size of the
    vector, so it never wraps. *)
Definition copy_found (e material : OBJECT_MATERIAL) : OBJECT_MATERIAL :=
  {| ambientStrength := ambientStrength material;
     ambientColor := ambientColor material;
     diffuseColor := diffuseColor e;
     specularColor := specularColor e;
     shininess := shininess e;
     material_tag := material_tag material |}.

Equations? FindMaterial_loop (mats : list OBJECT_MATERIAL) (tg : string)
    (material : OBJECT_MATERIAL) (index : Z) (bFound : bool)
    : option OBJECT_MATERIAL
    by wf (loop_measure (Z.of_nat (length mats)) index bFound) lt :=
  FindMaterial_loop mats tg material index bFound
    with inspect ((index <? Z.of_nat (length mats)) && Bool.eqb bFound false) := {
    | exist _ true Hc :=
        match mats !! Z.to_nat index with
        | None => None
        | Some e =>
            if string_compare (material_tag e) tg =? 0
            then FindMaterial_loop mats tg (copy_found e material) index true
            else FindMaterial_loop mats tg material (index + 1) bFound
        end
    | exist _ false Hc := Some material }.
Proof.
  all: apply andb_prop in Hc as [Hi Hb]; destruct bFound; try discriminate;
    unfold loop_measure; lia.
Qed.

Definition FindMaterial (tg : string) (material : OBJECT_MATERIAL)
    : M (bool * OBJECT_MATERIAL) :=
  mats <- gets m_objectMaterials ;;
  if Z.of_nat (length mats) =? 0 then
    ret (false, material)
  else
    material <- lift_read (fun s =>
      FindMaterial_loop (m_objectMaterials s) tg material 0 false) ;;
    ret (true, material).

(** *** [SceneManager::SetTransformations] *)
Definition if_shader (m : M unit) : M unit :=
  p <- gets m_pShaderManager ;;
  match p with
  | Some _ => m
  | None => ret tt
  end.

Definition SetTransformations (scaleXYZ : glm.vec3 T)
    (XrotationDegrees YrotationDegrees ZrotationDegrees : T)
    (positionXYZ : glm.vec3 T) : M unit :=
  let scale := glm.scale scaleXYZ in
  let rotationX :=
    glm.rotate (glm.radians XrotationDegrees)
               (glm.Vec3 (lit 1) (lit 0) (lit 0)) in
  let rotationY :=
    glm.rotate (glm.radians YrotationDegrees)
               (glm.Vec3 (lit 0) (lit 1) (lit 0)) in
  let rotationZ :=
    glm.rotate (glm.radians ZrotationDegrees)
               (glm.Vec3 (lit 0) (lit 0) (lit 1)) in
  let translation := glm.translate positionXYZ in
  let modelView :=
    glm.mat4_mul (glm.mat4_mul (glm.mat4_mul (glm.mat4_mul
      translation rotationZ) rotationY) rotationX) scale in
  if_shader (shader (setMat4Value g_ModelName modelView)).

(** *** [SceneManager::SetShaderColor] *)
Definition SetShaderColor (redColorValue greenColorValue blueColorValue
    alphaValue : T) : M unit :=
  let currentColor :=
    glm.Vec4 redColorValue greenColorValue blueColorValue alphaValue in
  if_shader (
    shader (setIntValue g_UseTextureName 0) ;;
    shader (setVec4Value g_ColorValueName currentColor)).

(** *** [SceneManager::SetShaderTexture] *)
Definition SetShaderTexture (textureTag : string) : M unit :=
  if_shader (
    shader (setIntValue g_UseTextureName 1) ;;
    textureID <- FindTextureSlot textureTag ;;
    shader (setSampler2DValue g_TextureValueName textureID)).

(** *** [SceneManager::SetTextureUVScale] *)
Definition SetTextureUVScale (u v : T) : M unit :=
  if_shader (shader (setVec2Value "UVscale" (glm.Vec2 u v))).

(** *** [SceneManager::SetShaderMaterial]

    The local [material] is declared without an initialiser; its contents
    before [FindMaterial] writes to it are whatever the stack holds. *)
Variable indeterminate : OBJECT_MATERIAL.

Definition SetShaderMaterial (materialTag : string) : M unit :=
  mats <- gets m_objectMaterials ;;
  if 0 <? Z.of_nat (length mats) then
    let material := indeterminate in
    r <- FindMaterial materialTag material ;;
    let bReturn := fst r in
    let material := snd r in
    if Bool.eqb bReturn true then
      shader (setVec3Value "material.diffuseColor" (diffuseColor material)) ;;
      shader (setVec3Value "material.specularColor" (specularColor material)) ;;
      shader (setFloatValue "material.shininess" (shininess material))
    else ret tt
  else ret tt.

(** *** [SceneManager::DefineObjectMaterials] *)
Definition push_back (m : OBJECT_MATERIAL) : M unit :=
  modify (fun s => set_objectMaterials (m_objectMaterials s ++ [m]) s).

Definition vec3_lit (a b c : Q) : glm.vec3 T := glm.Vec3 (lit a) (lit b) (lit c).

Definition DefineObjectMaterials : M unit :=
  let carbonMaterial :=
    {| ambientColor := vec3_lit 0.01 0.01 0.01;
       ambientStrength := lit 0.4;
       diffuseColor := vec3_lit 0.05 0.05 0.05;
       specularColor := vec3_lit 0.2 0.2 0.2;
       shininess := lit 5;
       material_tag := "carbon" |} in
  push_back carbonMaterial ;;
  let plasticMaterial :=
    {| ambientColor := vec3_lit 0.1 0.1 0.1;
       ambientStrength := lit 0.3;
       diffuseColor := vec3_lit 0.1 0.1 0.1;
       specularColor := vec3_lit 0.1 0.1 0.1;
       shininess := lit 25;
       material_tag := "plastic" |} in
  push_back plasticMaterial ;;
  let fabricMaterial :=
    {| ambientColor := vec3_lit 0.01 0.01 0.01;
       ambientStrength := lit 0.1;
       diffuseColor := vec3_lit 0.05 0.05 0.05;
       specularColor := vec3_lit 0.01 0.01 0.01;
       shininess := lit 5;
       material_tag := "fabric" |} in
  push_back fabricMaterial ;;
  let noteMaterial :=
    {| ambientColor := vec3_lit 0.01 0.01 0.2;
       ambientStrength := lit 0.4;
       diffuseColor := vec3_lit 0.4 0.4 0.4;
       specularColor := vec3_lit 0.5 0.5 0.5;
       shininess := lit 100;
       material_tag := "note" |} in
  push_back noteMaterial ;;
  let woodMaterial :=
    {| ambientColor := vec3_lit 0.1 0.1 0.05;
       ambientStrength := lit 0.1;
       diffuseColor := vec3_lit 0.2 0.2 0.15;
       specularColor := vec3_lit 0.1 0.1 0.05;
       shininess := lit 50;
       material_tag := "wood" |} in
  push_back woodMaterial ;;
  let pencilMaterial :=
    {| ambientColor := vec3_lit 0.3 0.3 0;
       ambientStrength := lit 0.4;
       diffuseColor := vec3_lit 0.7 0.7 0;
       specularColor := vec3_lit 0.9 0.9 0;
       shininess := lit 10;
       material_tag := "pencil" |} in
  push_back pencilMaterial ;;
  let metalMaterial :=
    {| ambientColor := vec3_lit 0.5 0.5 0.5;
       ambientStrength := lit 0.4;
       diffuseColor := vec3_lit 0.8 0.8 0.8;
       specularColor := vec3_lit 0.9 0.9 0.9;
       shininess := lit 100;
       material_tag := "metal" |} in
  push_back metalMaterial ;;
  let rubberMaterial :=
    {| ambientColor := vec3_lit 0.5 0.37 0.4;
       ambientStrength := lit 0.9;
       diffuseColor := vec3_lit 0.5 0.37 0.4;
       specularColor := vec3_lit 0.01 0.007 0.008;
       shininess := lit 10;
       material_tag := "rubber" |} in
  push_back rubberMaterial.

(** *** [SceneManager::LoadSceneTextures]

    The result of each load is stored in a local and never looked at. *)
Definition LoadSceneTextures : M unit :=
  bReturn <- CreateGLTexture "textures/desktop.jpg" "desk" ;;
  bReturn <- CreateGLTexture "textures/keyboard.jpg" "keyboard" ;;
  bReturn <- CreateGLTexture "textures/rest.jpg" "rest" ;;
  bReturn <- CreateGLTexture "textures/notebook.jpg" "notebook" ;;
  bReturn <- CreateGLTexture "textures/metal.jpg" "metal" ;;
  bReturn <- CreateGLTexture "textures/wood.jpg" "wood" ;;
  bReturn <- CreateGLTexture "textures/pencil.jpg" "pencil" ;;
  bReturn <- CreateGLTexture "textures/metal1.jpg" "metal1" ;;
  bReturn <- CreateGLTexture "textures/eraser.jpg" "eraser" ;;
  BindGLTextures.

(** *** [SceneManager::SetupSceneLights] *)
Definition SetupSceneLights : M unit :=
  shader (setVec3Value "directionalLight.direction" (vec3_lit (-5) (-5) (-4))) ;;
  shader (setVec3Value "directionalLight.ambient" (vec3_lit 0.8 0.8 0.8)) ;;
  shader (setVec3Value "directionalLight.diffuse" (vec3_lit 0.8 0.8 0.8)) ;;
  shader (setVec3Value "directionalLight.specular" (vec3_lit 0.6 0.6 0.6)) ;;
  shader (setBoolValue "directionalLight.bActive" true) ;;
  shader (setVec3Value "pointLights[0].position" (vec3_lit 0 8 1)) ;;
  shader (setVec3Value "pointLights[0].ambient" (vec3_lit 0.4 0.4 0.3)) ;;
  shader (setVec3Value "pointLights[0].diffuse" (vec3_lit 0.8 0.8 0.7)) ;;
  shader (setVec3Value "pointLights[0].specular" (vec3_lit 0.9 0.9 0.8)) ;;
  shader (setBoolValue "pointLights[0].bActive" true) ;;
  shader (setBoolValue "bUseLighting" true).

(** *** [SceneManager::PrepareScene] *)
Definition PrepareScene : M unit :=
  DefineObjectMaterials ;;
  LoadSceneTextures ;;
  SetupSceneLights ;;
  mesh LoadPlaneMesh ;;
  mesh LoadPrismMesh ;;
  mesh LoadBoxMesh ;;
  mesh LoadCylinderMesh ;;
  mesh LoadConeMesh ;;
  mesh LoadTorusMesh ;;
  mesh LoadBoxMesh2.

(** *** [SceneManager::RenderScene]

    The locals [scaleXYZ], [XrotationDegrees], [YrotationDegrees],
    [ZrotationDegrees] and [positionXYZ] are reassigned along the way; each
    assignment is a [let] that shadows the previous value. *)
Definition RenderScene : M unit :=
  let XrotationDegrees := (lit 0) in
  let YrotationDegrees := (lit 0) in
  let ZrotationDegrees := (lit 0) in
  let scaleXYZ := vec3_lit 15 1 5 in
  let positionXYZ := vec3_lit 0 0 4 in
  SetTransformations scaleXYZ XrotationDegrees YrotationDegrees ZrotationDegrees
    positionXYZ ;;
  SetShaderMaterial "carbon" ;;
  SetShaderTexture "desk" ;;
  mesh DrawPlaneMesh ;;
  let scaleXYZ := vec3_lit 10 0.2 4 in
  let XrotationDegrees := (lit 1.8) in
  let YrotationDegrees := (lit 0) in
  let ZrotationDegrees := (lit 0) in
  let positionXYZ := vec3_lit 0 0.05 4 in
  SetTransformations scaleXYZ XrotationDegrees YrotationDegrees ZrotationDegrees
    positionXYZ ;;
  SetShaderTexture "keyboard" ;;
  SetShaderMaterial "plastic" ;;
  mesh DrawBoxMesh ;;
  let scaleXYZ := vec3_lit 1 0.05 1 in
  let XrotationDegrees := (lit 0) in
  let YrotationDegrees := (lit 0) in
  let ZrotationDegrees := (lit 0) in
  let positionXYZ := vec3_lit 7 0 4 in
  SetTransformations scaleXYZ XrotationDegrees YrotationDegrees ZrotationDegrees
    positionXYZ ;;
  SetShaderTexture "rest" ;;
  SetShaderMaterial "fabric" ;;
  mesh DrawCylinderMesh ;;
  let scaleXYZ := vec3_lit 9.5 0.05 1.5 in
  let positionXYZ := vec3_lit 0 0.05 7 in
  SetTransformations scaleXYZ XrotationDegrees YrotationDegrees ZrotationDegrees
    positionXYZ ;;
  mesh DrawBoxMesh ;;
  let scaleXYZ := vec3_lit 9.4 0.15 1.4 in
  let positionXYZ := vec3_lit 0 0.1 7 in
  SetTransformations scaleXYZ XrotationDegrees YrotationDegrees ZrotationDegrees
    positionXYZ ;;
  mesh DrawBoxMesh ;;
  let scaleXYZ := vec3_lit 4.8 0.1 6 in
  let positionXYZ := vec3_lit (-9) 0.05 4.5 in
  SetTransformations scaleXYZ XrotationDegrees YrotationDegrees ZrotationDegrees
    positionXYZ ;;
  SetShaderTexture "notebook" ;;
  SetShaderMaterial "note" ;;
  mesh DrawBoxMesh2 ;;
  let scaleXYZ := vec3_lit 0.1 0.1 0.05 in
  let positionXYZ := vec3_lit (-11.4) 0.05 4 in
  SetTransformations scaleXYZ XrotationDegrees YrotationDegrees ZrotationDegrees
    positionXYZ ;;
  SetShaderTexture "metal" ;;
  SetShaderMaterial "metal" ;;
  mesh DrawTorusMesh ;;
  let positionXYZ := vec3_lit (-11.4) 0.05 4.2 in
  SetTransformations scaleXYZ XrotationDegrees YrotationDegrees ZrotationDegrees
    positionXYZ ;;
  mesh DrawTorusMesh ;;
  let positionXYZ := vec3_lit (-11.4) 0.05 4.4 in
  SetTransformations scaleXYZ XrotationDegrees YrotationDegrees ZrotationDegrees
    positionXYZ ;;
  mesh DrawTorusMesh ;;
  let positionXYZ := vec3_lit (-11.4) 0.05 4.6 in
  SetTransformations scaleXYZ XrotationDegrees YrotationDegrees ZrotationDegrees
    positionXYZ ;;
  mesh DrawTorusMesh ;;
  let positionXYZ := vec3_lit (-11.4) 0.05 4.8 in
  SetTransformations scaleXYZ XrotationDegrees YrotationDegrees ZrotationDegrees
    positionXYZ ;;
  mesh DrawTorusMesh ;;
  let positionXYZ := vec3_lit (-11.4) 0.05 5 in
  SetTransformations scaleXYZ XrotationDegrees YrotationDegrees ZrotationDegrees
    positionXYZ ;;
  mesh DrawTorusMesh ;;
  let positionXYZ := vec3_lit (-11.4) 0.05 5.2 in
  SetTransformations scaleXYZ XrotationDegrees YrotationDegrees ZrotationDegrees
    positionXYZ ;;
  mesh DrawTorusMesh ;;
  let positionXYZ := vec3_lit (-11.4) 0.05 5.4 in
  SetTransformations scaleXYZ XrotationDegrees YrotationDegrees ZrotationDegrees
    positionXYZ ;;
  mesh DrawTorusMesh ;;
  let positionXYZ := vec3_lit (-11.4) 0.05 5.6 in
  SetTransformations scaleXYZ XrotationDegrees YrotationDegrees ZrotationDegrees
    positionXYZ ;;
  mesh DrawTorusMesh ;;
  let positionXYZ := vec3_lit (-11.4) 0.05 5.8 in
  SetTransformations scaleXYZ XrotationDegrees YrotationDegrees ZrotationDegrees
    positionXYZ ;;
  mesh DrawTorusMesh ;;
  let positionXYZ := vec3_lit (-11.4) 0.05 6 in
  SetTransformations scaleXYZ XrotationDegrees YrotationDegrees ZrotationDegrees
    positionXYZ ;;
  mesh DrawTorusMesh ;;
  let positionXYZ := vec3_lit (-11.4) 0.05 6.2 in
  SetTransformations scaleXYZ XrotationDegrees YrotationDegrees ZrotationDegrees
    positionXYZ ;;
  mesh DrawTorusMesh ;;
  let positionXYZ := vec3_lit (-11.4) 0.05 6.4 in
  SetTransformations scaleXYZ XrotationDegrees YrotationDegrees ZrotationDegrees
    positionXYZ ;;
  mesh DrawTorusMesh ;;
  let positionXYZ := vec3_lit (-11.4) 0.05 6.6 in
  SetTransformations scaleXYZ XrotationDegrees YrotationDegrees ZrotationDegrees
    positionXYZ ;;
  mesh DrawTorusMesh ;;
  let positionXYZ := vec3_lit (-11.4) 0.05 6.8 in
  SetTransformations scaleXYZ XrotationDegrees YrotationDegrees ZrotationDegrees
    positionXYZ ;;
  mesh DrawTorusMesh ;;
  let positionXYZ := vec3_lit (-11.4) 0.05 7 in
  SetTransformations scaleXYZ XrotationDegrees YrotationDegrees ZrotationDegrees
    positionXYZ ;;
  mesh DrawTorusMesh ;;
  let positionXYZ := vec3_lit (-11.4) 0.05 7.2 in
  SetTransformations scaleXYZ XrotationDegrees YrotationDegrees ZrotationDegrees
    positionXYZ ;;
  mesh DrawTorusMesh ;;
  let positionXYZ := vec3_lit (-11.4) 0.05 7.4 in
  SetTransformations scaleXYZ XrotationDegrees YrotationDegrees ZrotationDegrees
    positionXYZ ;;
  mesh DrawTorusMesh ;;
  let positionXYZ := vec3_lit (-11.4) 0.05 3.8 in
  SetTransformations scaleXYZ XrotationDegrees YrotationDegrees ZrotationDegrees
    positionXYZ ;;
  mesh DrawTorusMesh ;;
  let positionXYZ := vec3_lit (-11.4) 0.05 3.6 in
  SetTransformations scaleXYZ XrotationDegrees YrotationDegrees ZrotationDegrees
    positionXYZ ;;
  mesh DrawTorusMesh ;;
  let positionXYZ := vec3_lit (-11.4) 0.05 3.4 in
  SetTransformations scaleXYZ XrotationDegrees YrotationDegrees ZrotationDegrees
    positionXYZ ;;
  mesh DrawTorusMesh ;;
  let positionXYZ := vec3_lit (-11.4) 0.05 3.2 in
  SetTransformations scaleXYZ XrotationDegrees YrotationDegrees ZrotationDegrees
    positionXYZ ;;
  mesh DrawTorusMesh ;;
  let positionXYZ := vec3_lit (-11.4) 0.05 3 in
  SetTransformations scaleXYZ XrotationDegrees YrotationDegrees ZrotationDegrees
    positionXYZ ;;
  mesh DrawTorusMesh ;;
  let positionXYZ := vec3_lit (-11.4) 0.05 2.8 in
  SetTransformations scaleXYZ XrotationDegrees YrotationDegrees ZrotationDegrees
    positionXYZ ;;
  mesh DrawTorusMesh ;;
  let positionXYZ := vec3_lit (-11.4) 0.05 2.6 in
  SetTransformations scaleXYZ XrotationDegrees YrotationDegrees ZrotationDegrees
    positionXYZ ;;
  mesh DrawTorusMesh ;;
  let positionXYZ := vec3_lit (-11.4) 0.05 2.4 in
  SetTransformations scaleXYZ XrotationDegrees YrotationDegrees ZrotationDegrees
    positionXYZ ;;
  mesh DrawTorusMesh ;;
  let positionXYZ := vec3_lit (-11.4) 0.05 2.2 in
  SetTransformations scaleXYZ XrotationDegrees YrotationDegrees ZrotationDegrees
    positionXYZ ;;
  mesh DrawTorusMesh ;;
  let positionXYZ := vec3_lit (-11.4) 0.05 2 in
  SetTransformations scaleXYZ XrotationDegrees YrotationDegrees ZrotationDegrees
    positionXYZ ;;
  mesh DrawTorusMesh ;;
  let positionXYZ := vec3_lit (-11.4) 0.05 1.8 in
  SetTransformations scaleXYZ XrotationDegrees YrotationDegrees ZrotationDegrees
    positionXYZ ;;
  mesh DrawTorusMesh ;;
  let positionXYZ := vec3_lit (-11.4) 0.05 1.6 in
  SetTransformations scaleXYZ XrotationDegrees YrotationDegrees ZrotationDegrees
    positionXYZ ;;
  mesh DrawTorusMesh ;;
  let scaleXYZ := vec3_lit 0.1 0.3 0.1 in
  let XrotationDegrees := (lit (-90)) in
  let YrotationDegrees := (lit 45) in
  let ZrotationDegrees := (lit 0) in
  let positionXYZ := vec3_lit (-9.8) 0.2 2.2 in
  SetTransformations scaleXYZ XrotationDegrees YrotationDegrees ZrotationDegrees
    positionXYZ ;;
  SetShaderMaterial "wood" ;;
  SetShaderTexture "wood" ;;
  mesh DrawConeMesh ;;
  let positionXYZ := vec3_lit (-10.3) 0.2 2.7 in
  SetTransformations scaleXYZ XrotationDegrees YrotationDegrees ZrotationDegrees
    positionXYZ ;;
  mesh DrawConeMesh ;;
  let scaleXYZ := vec3_lit 0.1 3.253 0.1 in
  let positionXYZ := vec3_lit (-7.5) 0.2 4.5 in
  SetTransformations scaleXYZ XrotationDegrees YrotationDegrees ZrotationDegrees
    positionXYZ ;;
  SetShaderColor (lit 0.2) (lit 0.2) (lit 0.2) (lit 1) ;;
  SetShaderMaterial "pencil" ;;
  SetShaderTexture "pencil" ;;
  mesh DrawCylinderMesh ;;
  let positionXYZ := vec3_lit (-8) 0.2 5 in
  SetTransformations scaleXYZ XrotationDegrees YrotationDegrees ZrotationDegrees
    positionXYZ ;;
  mesh DrawCylinderMesh ;;
  let scaleXYZ := vec3_lit 0.105 0.3 0.105 in
  let positionXYZ := vec3_lit (-7.3) 0.2 4.7 in
  SetTransformations scaleXYZ XrotationDegrees YrotationDegrees ZrotationDegrees
    positionXYZ ;;
  SetShaderColor (lit 0.2) (lit 0.2) (lit 0.2) (lit 1) ;;
  SetShaderMaterial "metal" ;;
  SetShaderTexture "metal1" ;;
  mesh DrawCylinderMesh ;;
  let positionXYZ := vec3_lit (-7.8) 0.2 5.2 in
  SetTransformations scaleXYZ XrotationDegrees YrotationDegrees ZrotationDegrees
    positionXYZ ;;
  mesh DrawCylinderMesh ;;
  let scaleXYZ := vec3_lit 0.1 0.2 0.1 in
  let positionXYZ := vec3_lit (-7.2) 0.2 4.8 in
  SetTransformations scaleXYZ XrotationDegrees YrotationDegrees ZrotationDegrees
    positionXYZ ;;
  SetShaderMaterial "rubber" ;;
  SetShaderTexture "eraser" ;;
  mesh DrawCylinderMesh ;;
  let positionXYZ := vec3_lit (-7.7) 0.2 5.3 in
  SetTransformations scaleXYZ XrotationDegrees YrotationDegrees ZrotationDegrees
    positionXYZ ;;
  mesh DrawCylinderMesh.


(** ** Vocabulary for the properties *)

(** The state of the texture array that every method keeps: 16 entries and
    a count between 0 and 16. *)
Definition registry_ok (s : SceneManager) : Prop :=
  length (m_textureIDs s) = 16%nat /\
  0 <= m_loadedTextures s <= TEXTURE_CAPACITY.

(** The registry proper: the entries below the loaded count, and their tags
    in registration order. *)
Definition registered (s : SceneManager) : list TEXTURE_INFO :=
  take (Z.to_nat (m_loadedTextures s)) (m_textureIDs s).
Definition registered_tags (s : SceneManager) : list string :=
  tag <$> registered s.

(** The position of the first entry carrying [tg], if any. *)
Definition first_index (tg : string) (tags : list string) : option nat :=
  fst <$> list_find (fun t => t = tg) tags.

(** The first registered texture carrying [tg], if any. *)
Definition first_texture (tg : string) (entries : list TEXTURE_INFO)
    : option TEXTURE_INFO :=
  snd <$> list_find (fun e => tag e = tg) entries.

(** The first material carrying [tg], if any. *)
Definition first_material (tg : string) (mats : list OBJECT_MATERIAL)
    : option OBJECT_MATERIAL :=
  snd <$> list_find (fun e => material_tag e = tg) mats.

(** A sequence of texture loads, [(filename, tag)] in order, collecting the
    results of the calls. *)
Fixpoint load_textures (loads : list (string * string)) : M (list bool) :=
  match loads with
  | [] => ret []
  | (filename, tg) :: rest =>
      b <- CreateGLTexture filename tg ;;
      bs <- load_textures rest ;;
      ret (b :: bs)
  end.

(** A load whose file decodes to an RGB or RGBA image. *)
Definition decodes_rgb_or_rgba (filename : string) : Prop :=
  exists img, stbi_load true filename = Some img /\
              (colorChannels img = 3 \/ colorChannels img = 4).

(** What a method leaves alone: the texture array, the loaded count and the
    material list. *)
Definition same_collections (s s' : SceneManager) : Prop :=
  m_textureIDs s' = m_textureIDs s /\
  m_loadedTextures s' = m_loadedTextures s /\
  m_objectMaterials s' = m_objectMaterials s.

Definition preserves_collections {A} (m : M A) : Prop :=
  forall s a s', m s = Some (a, s') -> same_collections s s'.

(** A state in which rendering can run: the registry is in order and there
    is a shader manager to talk to.  A method [returns_ready] when, from
    every such state, it returns and leaves such a state. *)
Definition ready (s : SceneManager) : Prop :=
  registry_ok s /\ is_Some (m_pShaderManager s).

Definition returns_ready {A} (m : M A) : Prop :=
  forall s, ready s -> exists a s', m s = Some (a, s') /\ ready s'.

(** The shader manager after it has received the calls [cs], when there is
    one. *)
Definition shader_received (cs : list shader_call) (s : SceneManager)
    : SceneManager :=
  set_pShaderManager ((fun log => log ++ cs) <$> m_pShaderManager s) s.

(** ** Vocabulary for the behaviour of loading, binding and rendering *)

(** Whether a load of [filename] enters a texture in the registry: the file
    decodes and has three or four channels. *)
Definition load_ok (filename : string) : bool :=
  match stbi_load true filename with
  | Some img => (colorChannels img =? 3) || (colorChannels img =? 4)
  | None => false
  end.

(** The tags of the loads that enter a texture, in order. *)
Definition loaded_tags (loads : list (string * string)) : list string :=
  snd <$> filter (fun l => load_ok (fst l) = true) loads.

(** Whether the file decodes at all. *)
Definition decodes (filename : string) : bool :=
  match stbi_load true filename with Some _ => true | None => false end.

(** The GL calls that bind the given entries to the texture units [unit],
    [unit + 1], ... *)
Fixpoint bind_calls (unit : Z) (entries : list TEXTURE_INFO) : list gl_call :=
  match entries with
  | [] => []
  | e :: rest =>
      glActiveTexture unit :: glBindTexture GL_TEXTURE_2D (ID e)
        :: bind_calls (unit + 1) rest
  end.

(** The upload call for a decoded image: RGB for three channels, RGBA
    otherwise. *)
Definition texture_upload (img : stbi_image) : gl_call :=
  if colorChannels img =? 3
  then glTexImage2D GL_TEXTURE_2D 0 GL_RGB8 (width img) (height img) 0
                    GL_RGB GL_UNSIGNED_BYTE (pixels img)
  else glTexImage2D GL_TEXTURE_2D 0 GL_RGBA8 (width img) (height img) 0
                    GL_RGBA GL_UNSIGNED_BYTE (pixels img).

(** The names the driver hands out for [n] successive requests of one
    name each, starting from the call log [context]. *)
Fixpoint fresh_names (context : list gl_call) (n : nat) : list Z :=
  match n with
  | O => []
  | S k =>
      let name := gl_fresh_name context in
      name :: fresh_names (context ++ [glGenTextures 1 name]) k
  end.

(** The number of texture names a GL call log has asked for. *)
Definition is_glGenTextures (c : gl_call) : bool :=
  match c with glGenTextures _ _ => true | _ => false end.
Definition generated (calls : list gl_call) : nat :=
  length (filter (fun c => is_glGenTextures c = true) calls).

(** A draw call of the mesh library. *)
Definition is_draw (c : mesh_call) : bool :=
  match c with
  | DrawPlaneMesh | DrawBoxMesh | DrawCylinderMesh | DrawConeMesh
  | DrawTorusMesh | DrawBoxMesh2 => true
  | _ => false
  end.

(** A uniform call that does not hand the shader the not-found sentinel as
    a sampler. *)
Definition sampler_bound (c : shader_call) : Prop :=
  match c with
  | setSampler2DValue _ slot => 0 <= slot
  | _ => True
  end.

(** The files and tags [LoadSceneTextures] loads, the tags [RenderScene]
    passes to [SetShaderTexture], and those it passes to
    [SetShaderMaterial]. *)
Definition scene_loads : list (string * string) :=
  [ ("textures/desktop.jpg", "desk"); ("textures/keyboard.jpg", "keyboard");
    ("textures/rest.jpg", "rest"); ("textures/notebook.jpg", "notebook");
    ("textures/metal.jpg", "metal"); ("textures/wood.jpg", "wood");
    ("textures/pencil.jpg", "pencil"); ("textures/metal1.jpg", "metal1");
    ("textures/eraser.jpg", "eraser") ]%string.
Definition scene_texture_tags : list string :=
  [ "desk"; "keyboard"; "rest"; "notebook"; "metal"; "wood"; "pencil";
    "metal1"; "eraser" ]%string.
Definition scene_material_tags : list string :=
  [ "carbon"; "plastic"; "fabric"; "note"; "metal"; "wood"; "pencil";
    "rubber" ]%string.

(** Every material tag the scene uses has an entry; every texture tag the
    scene uses is registered. *)
Definition materials_defined (s : SceneManager) : Prop :=
  Forall (fun tg => is_Some (first_material tg (m_objectMaterials s)))
         scene_material_tags.
Definition textures_loaded (s : SceneManager) : Prop :=
  Forall (fun tg => tg ∈ registered_tags s) scene_texture_tags.

(** The shader manager has never been handed the sentinel as a sampler. *)
Definition samplers_bound (s : SceneManager) : Prop :=
  forall log, m_pShaderManager s = Some log -> Forall sampler_bound log.

(** The state in which every texture lookup of the scene succeeds. *)
Definition scene_bound (s : SceneManager) : Prop :=
  registry_ok s /\ textures_loaded s /\ samplers_bound s.

(** A scene manager without a shader manager. *)
Definition no_shader (s : SceneManager) : Prop := m_pShaderManager s = None.

(** Two methods that behave alike on every state satisfying [P]. *)
Definition agree_on (P : SceneManager -> Prop) {A} (m1 m2 : M A) : Prop :=
  forall s, P s -> m1 s = m2 s.

(** A method that keeps [P] whenever it returns. *)
Definition keeps (P : SceneManager -> Prop) {A} (m : M A) : Prop :=
  forall s a s', P s -> m s = Some (a, s') -> P s'.

(** A method whose only effects are calls on the shader manager and the
    mesh library, the latter being exactly [ds]. *)
Definition draws (ds : list mesh_call) {A} (m : M A) : Prop :=
  forall s a s', m s = Some (a, s') ->
    gl_context s' = gl_context s /\ console s' = console s /\
    m_basicMeshes s' = m_basicMeshes s ++ ds.

End SceneManager.
Arguments SceneManager T : clear implicits.
Arguments OBJECT_MATERIAL T : clear implicits.
Arguments shader_call T : clear implicits.
Arguments M T A : clear implicits.
End Scene.

(* ===================================================================== *)
(** * The transform composition, in the words of the specification *)
(* ===================================================================== *)

Module Spec.
Section ModelMatrix.
Context {T : Type} `{Scalar T}.
Local Open Scope scalar_scope.

(** The entry in row [i], column [j]. *)
Definition column (m : glm.mat4 T) (j : nat) : glm.vec4 T :=
  match j with
  | 0%nat => glm.col0 m | 1%nat => glm.col1 m
  | 2%nat => glm.col2 m | _ => glm.col3 m
  end.
Definition component (v : glm.vec4 T) (i : nat) : T :=
  match i with
  | 0%nat => glm.x4 v | 1%nat => glm.y4 v
  | 2%nat => glm.z4 v | _ => glm.w4 v
  end.
Definition entry (m : glm.mat4 T) (i j : nat) : T := component (column m j) i.

(** The matrix with the given entries. *)
Definition matrix_of (e : nat -> nat -> T) : glm.mat4 T :=
  glm.Mat4 (glm.Vec4 (e 0 0) (e 1 0) (e 2 0) (e 3 0))%nat
           (glm.Vec4 (e 0 1) (e 1 1) (e 2 1) (e 3 1))%nat
           (glm.Vec4 (e 0 2) (e 1 2) (e 2 2) (e 3 2))%nat
           (glm.Vec4 (e 0 3) (e 1 3) (e 2 3) (e 3 3))%nat.

(** The matrix product: rows of [a] against columns of [b]. *)
Definition product (a b : glm.mat4 T) : glm.mat4 T :=
  matrix_of (fun i j =>
    entry a i 0 * entry b 0 j + entry a i 1 * entry b 1 j
    + entry a i 2 * entry b 2 j + entry a i 3 * entry b 3 j).

(** The elementary transforms of the parameters. *)
Definition scale_matrix (scaleXYZ : glm.vec3 T) : glm.mat4 T :=
  glm.scale scaleXYZ.
Definition rotateX (degrees : T) : glm.mat4 T :=
  glm.rotate (glm.radians degrees) (glm.Vec3 (lit 1) (lit 0) (lit 0)).
Definition rotateY (degrees : T) : glm.mat4 T :=
  glm.rotate (glm.radians degrees) (glm.Vec3 (lit 0) (lit 1) (lit 0)).
Definition rotateZ (degrees : T) : glm.mat4 T :=
  glm.rotate (glm.radians degrees) (glm.Vec3 (lit 0) (lit 0) (lit 1)).
Definition translation (positionXYZ : glm.vec3 T) : glm.mat4 T :=
  glm.translate positionXYZ.

(** model matrix = translation x rotateZ x rotateY x rotateX x scale. *)
Definition model_matrix (scaleXYZ : glm.vec3 T) (xDegrees yDegrees zDegrees : T)
    (positionXYZ : glm.vec3 T) : glm.mat4 T :=
  product (product (product (product
    (translation positionXYZ) (rotateZ zDegrees)) (rotateY yDegrees))
    (rotateX xDegrees)) (scale_matrix scaleXYZ).

(** The 4x4 identity matrix: 1 on the diagonal, 0 elsewhere. *)
Definition identity_matrix : glm.mat4 T :=
  matrix_of (fun i j => if Nat.eqb i j then lit 1 else lit 0).


End ModelMatrix.
End Spec.

(* ===================================================================== *)
(** * Concrete inputs *)
(* ===================================================================== *)

(** Exact arithmetic: the scalars as real numbers. *)
#[export] Instance R_Scalar : Scalar R := {|
  lit := Q2R;
  add := Rplus;
  sub := Rminus;
  mul := Rmult;
  div := Rdiv;
  sqrt := R_sqrt.sqrt;
  cos := Rtrigo_def.cos;
  sin := Rtrigo_def.sin
|}.

Module Examples.
Import Scene.

(** A decoder for a small file system: one file is missing, one is a
    greyscale image, one has an alpha channel, every other file is RGB. *)
Definition image (channels : Z) : stbi_image :=
  {| width := 2; height := 2; colorChannels := channels;
     pixels := repeat Byte.xff (Z.to_nat (4 * channels)) |}.
Definition decoder (flip : bool) (filename : string) : option stbi_image :=
  if String.eqb filename "textures/missing.jpg" then None
  else if String.eqb filename "textures/grey.png" then Some (image 1)
  else if String.eqb filename "textures/glass.png" then Some (image 4)
  else Some (image 3).

(** A driver that hands out texture names 1, 2, 3, ... *)
Definition is_gen (c : gl_call) : bool :=
  match c with glGenTextures _ _ => true | _ => false end.
Definition driver (calls : list gl_call) : Z :=
  1 + Z.of_nat (length (filter (fun c => is_gen c = true) calls)).

(** What happens to be in a local that was never assigned. *)
Definition garbage : OBJECT_MATERIAL R :=
  {| ambientStrength := Q2R 0.25;
     ambientColor := glm.Vec3 (Q2R 3) (Q2R 1) (Q2R 4);
     diffuseColor := glm.Vec3 (Q2R 1) (Q2R 5) (Q2R 9);
     specularColor := glm.Vec3 (Q2R 2) (Q2R 6) (Q2R 5);
     shininess := Q2R 3.5;
     material_tag := "" |}.

(** A scene manager fresh from its constructor, with a shader manager. *)
Definition fresh : SceneManager R := new_SceneManager (Some []) [] [].

(** The same after [DefineObjectMaterials]. *)
Definition with_materials : SceneManager R :=
  match DefineObjectMaterials fresh with
  | Some (_, s) => s
  | None => fresh
  end.

(** The same after [PrepareScene]. *)
Definition prepared : SceneManager R :=
  match PrepareScene decoder driver fresh with
  | Some (_, s) => s
  | None => fresh
  end.

(** Sixteen loads with distinct tags, and a seventeenth. *)
Definition sixteen_loads : list (string * string) :=
  [ ("textures/desktop.jpg", "desk"); ("textures/keyboard.jpg", "keyboard");
    ("textures/rest.jpg", "rest"); ("textures/notebook.jpg", "notebook");
    ("textures/metal.jpg", "metal"); ("textures/wood.jpg", "wood");
    ("textures/pencil.jpg", "pencil"); ("textures/metal1.jpg", "metal1");
    ("textures/eraser.jpg", "eraser"); ("textures/glass.png", "glass");
    ("textures/paper.jpg", "paper"); ("textures/cork.jpg", "cork");
    ("textures/felt.jpg", "felt"); ("textures/steel.jpg", "steel");
    ("textures/brass.jpg", "brass"); ("textures/ink.jpg", "ink") ]%string.
Definition seventeenth : string * string := ("textures/lamp.jpg", "lamp")%string.
Definition seventeen_loads : list (string * string) :=
  sixteen_loads ++ [seventeenth].

(** The registry once the sixteen loads are done. *)
Definition full : SceneManager R :=
  match load_textures decoder driver sixteen_loads fresh with
  | Some (_, s) => s
  | None => fresh
  end.

End Examples.

(* ===================================================================== *)
(** * Properties *)
(* ===================================================================== *)

Import Scene.

Section Properties.
Context {T : Type} `{Scalar T}.
Variable stbi_load : bool -> string -> option stbi_image.
Variable gl_fresh_name : list gl_call -> Z.
Variable indeterminate : Scene.OBJECT_MATERIAL T.

Abbreviation CreateGLTexture := (Scene.CreateGLTexture stbi_load gl_fresh_name).
Abbreviation SceneManager := (Scene.SceneManager T).
Abbreviation OBJECT_MATERIAL := (Scene.OBJECT_MATERIAL T).
Abbreviation shader_call := (Scene.shader_call T).
Abbreviation M := (Scene.M T).

Lemma string_compare_refl a : string_compare a a = 0.
Proof.
  unfold string_compare.
  pose proof (String.compare_antisym a a) as Ha.
  destruct (String.compare a a); simpl in Ha; congruence.
Qed.

Lemma string_compare_eqb a b : (string_compare a b =? 0) = bool_decide (a = b).
Proof.
  case_bool_decide as Hab.
  - subst. rewrite string_compare_refl. reflexivity.
  - apply Z.eqb_neq. intros Hc. apply Hab.
    apply String.compare_eq_iff. unfold string_compare in Hc.
    destruct (String.compare a b); congruence.
Qed.

(** One round of each loop. *)
Lemma FindTextureSlot_loop_eq (arr : list TEXTURE_INFO) loaded tg textureSlot
    index bFound :
  FindTextureSlot_loop arr loaded tg textureSlot index bFound =
  if (index <? loaded) && Bool.eqb bFound false then
    match array_read arr index with
    | None => None
    | Some e =>
        if string_compare (tag e) tg =? 0
        then FindTextureSlot_loop arr loaded tg index index true
        else FindTextureSlot_loop arr loaded tg textureSlot (index + 1) bFound
    end
  else Some textureSlot.
Proof.
  funelim (FindTextureSlot_loop arr loaded tg textureSlot index bFound);
    rewrite Hc; reflexivity.
Qed.

Lemma FindTextureID_loop_eq (arr : list TEXTURE_INFO) loaded tg textureID index
    bFound :
  FindTextureID_loop arr loaded tg textureID index bFound =
  if (index <? loaded) && Bool.eqb bFound false then
    match array_read arr index with
    | None => None
    | Some e =>
        if string_compare (tag e) tg =? 0
        then FindTextureID_loop arr loaded tg (ID e) index true
        else FindTextureID_loop arr loaded tg textureID (index + 1) bFound
    end
  else Some textureID.
Proof.
  funelim (FindTextureID_loop arr loaded tg textureID index bFound);
    rewrite Hc; reflexivity.
Qed.

Lemma FindMaterial_loop_eq (mats : list (OBJECT_MATERIAL)) tg material index
    bFound :
  FindMaterial_loop mats tg material index bFound =
  if (index <? Z.of_nat (length mats)) && Bool.eqb bFound false then
    match mats !! Z.to_nat index with
    | None => None
    | Some e =>
        if string_compare (material_tag e) tg =? 0
        then FindMaterial_loop mats tg (copy_found e material) index true
        else FindMaterial_loop mats tg material (index + 1) bFound
    end
  else Some material.
Proof.
  funelim (FindMaterial_loop mats tg material index bFound);
    rewrite Hc; reflexivity.
Qed.

(** Once [bFound] is set the loop is over. *)
Lemma FindTextureSlot_loop_found (arr : list TEXTURE_INFO) loaded tg textureSlot
    index :
  FindTextureSlot_loop arr loaded tg textureSlot index true = Some textureSlot.
Proof. rewrite FindTextureSlot_loop_eq, andb_false_r. reflexivity. Qed.

Lemma FindMaterial_loop_found (mats : list (OBJECT_MATERIAL)) tg material index
    :
  FindMaterial_loop mats tg material index true = Some material.
Proof. rewrite FindMaterial_loop_eq, andb_false_r. reflexivity. Qed.

(** The material loop ends with the caller's material, overwritten from the
    first entry that carries the tag when there is one. *)
Lemma first_material_cons (tg : string) (e : OBJECT_MATERIAL)
    (mats : list OBJECT_MATERIAL) :
  first_material tg (e :: mats) =
  if bool_decide (material_tag e = tg) then Some e else first_material tg mats.
Proof.
  unfold first_material. simpl.
  case_bool_decide; destruct (decide (material_tag e = tg));
    try contradiction; simpl.
  - reflexivity.
  - destruct (list_find _ mats) as [[i x]|]; reflexivity.
Qed.

Lemma FindMaterial_loop_scan (mats : list OBJECT_MATERIAL) (tg : string)
    (material : OBJECT_MATERIAL) (k : nat) :
  forall index,
    0 <= index -> index + Z.of_nat k = Z.of_nat (length mats) ->
    FindMaterial_loop mats tg material index false =
    Some (match first_material tg (drop (Z.to_nat index) mats) with
          | Some e => copy_found e material
          | None => material
          end).
Proof.
  induction k as [|k IH]; intros index Hlo Hk;
    rewrite FindMaterial_loop_eq.
  - replace (index <? Z.of_nat (length mats)) with false
      by (symmetry; apply Z.ltb_ge; lia).
    simpl. rewrite drop_ge by lia. reflexivity.
  - replace (index <? Z.of_nat (length mats)) with true
      by (symmetry; apply Z.ltb_lt; lia).
    simpl.
    destruct (lookup_lt_is_Some_2 mats (Z.to_nat index)) as [e He]; [lia|].
    rewrite He, (drop_S _ e) by exact He.
    rewrite first_material_cons, string_compare_eqb.
    case_bool_decide.
    + apply FindMaterial_loop_found.
    + rewrite IH by lia.
      replace (Z.to_nat (index + 1)) with (S (Z.to_nat index)) by lia.
      reflexivity.
Qed.

(** [FindMaterial] always returns; its result is [false] for an empty list
    and [true] for every other list. *)
Lemma FindMaterial_spec (tg : string) (material : OBJECT_MATERIAL)
    (s : SceneManager) :
  FindMaterial tg material s =
  Some ((negb (Z.of_nat (length (m_objectMaterials s)) =? 0),
         match first_material tg (m_objectMaterials s) with
         | Some e => copy_found e material
         | None => material
         end), s).
Proof.
  unfold FindMaterial, bind, gets, lift_read, ret.
  destruct (Z.of_nat (length (m_objectMaterials s)) =? 0) eqn:Hsize; simpl.
  - apply Z.eqb_eq in Hsize. destruct (m_objectMaterials s); [reflexivity|].
    simpl in Hsize. lia.
  - rewrite (FindMaterial_loop_scan _ _ _ (length (m_objectMaterials s))) by lia.
    simpl. rewrite drop_0. reflexivity.
Qed.

(** C9. Whatever the tag and the material list, [FindMaterial] returns, and
    the caller's material comes back with its [ambientColor],
    [ambientStrength] (and tag) unchanged, found or not: only
    [diffuseColor], [specularColor] and [shininess] are ever assigned. *)
Theorem FindMaterial_writes_three_fields (tg : string)
    (material : OBJECT_MATERIAL) (s : SceneManager) :
  exists (found : bool) (material' : OBJECT_MATERIAL),
    FindMaterial tg material s = Some ((found, material'), s) /\
    ambientColor material' = ambientColor material /\
    ambientStrength material' = ambientStrength material /\
    material_tag material' = material_tag material.
Proof.
  rewrite FindMaterial_spec. do 2 eexists. split; [reflexivity|].
  destruct (first_material tg (m_objectMaterials s)); repeat split.
Qed.

Lemma FindMaterial_nonempty (tg : string) (material : OBJECT_MATERIAL)
    (s : SceneManager) :
  m_objectMaterials s <> [] ->
  exists material', FindMaterial tg material s = Some ((true, material'), s).
Proof.
  intros Hne. rewrite FindMaterial_spec.
  destruct (m_objectMaterials s) eqn:Hmats; [contradiction|].
  eexists. reflexivity.
Qed.

(** C2. When the image decodes with a channel count other than 3 and 4,
    [CreateGLTexture] returns [false] and the texture array, the loaded
    count and the material list are what they were. *)
Theorem CreateGLTexture_unsupported_channels (filename tg : string)
    (img : stbi_image) (s : SceneManager) :
  stbi_load true filename = Some img ->
  colorChannels img <> 3 ->
  colorChannels img <> 4 ->
  exists s',
    CreateGLTexture filename tg s = Some (false, s') /\
    same_collections s s'.
Proof.
  intros Himg H3 H4. unfold Scene.CreateGLTexture. rewrite Himg.
  destruct (Z.eqb_spec (colorChannels img) 3) as [|_]; [contradiction|].
  destruct (Z.eqb_spec (colorChannels img) 4) as [|_]; [contradiction|].
  eexists. split; [reflexivity|]. repeat split.
Qed.

Lemma CreateGLTexture_registers (filename tg : string) (img : stbi_image)
    (s : SceneManager) :
  stbi_load true filename = Some img ->
  colorChannels img = 3 \/ colorChannels img = 4 ->
  0 <= m_loadedTextures s < TEXTURE_CAPACITY ->
  exists s',
    CreateGLTexture filename tg s = Some (true, s') /\
    m_loadedTextures s' = m_loadedTextures s + 1 /\
    m_textureIDs s' =
      alter (fun e => with_tag tg (with_ID (gl_fresh_name (gl_context s)) e))
            (Z.to_nat (m_loadedTextures s)) (m_textureIDs s) /\
    m_objectMaterials s' = m_objectMaterials s /\
    m_pShaderManager s' = m_pShaderManager s.
Proof.
  intros Himg Hch Hn. unfold Scene.CreateGLTexture. rewrite Himg.
  assert (Hin : in_texture_array (m_loadedTextures s) = true).
  { unfold in_texture_array. apply andb_true_intro. split; lia. }
  destruct Hch as [Hch|Hch]; rewrite Hch; simpl.
  all: unfold bind, cout, gl, gen_texture, modify, gets, write_texture, ret; simpl.
  all: rewrite Hin; simpl; rewrite Hin; simpl.
  all: eexists; split; [reflexivity|]; simpl.
  all: rewrite list_alter_alter_eq; repeat split.
Qed.

(** *** The registry after a successful load *)
Lemma registry_ok_lookup (s : SceneManager) (i : Z) :
  registry_ok s -> 0 <= i < TEXTURE_CAPACITY ->
  exists e, m_textureIDs s !! Z.to_nat i = Some e.
Proof.
  intros [Hlen _] Hi. apply lookup_lt_is_Some_2.
  unfold TEXTURE_CAPACITY in Hi. lia.
Qed.

Lemma CreateGLTexture_appends (filename tg : string) (img : stbi_image)
    (s : SceneManager) :
  stbi_load true filename = Some img ->
  colorChannels img = 3 \/ colorChannels img = 4 ->
  registry_ok s ->
  m_loadedTextures s < TEXTURE_CAPACITY ->
  exists s',
    CreateGLTexture filename tg s = Some (true, s') /\
    registry_ok s' /\
    m_loadedTextures s' = m_loadedTextures s + 1 /\
    registered s' =
      registered s ++ [{| tag := tg; ID := gl_fresh_name (gl_context s) |}] /\
    (forall j, j <> Z.to_nat (m_loadedTextures s) ->
               m_textureIDs s' !! j = m_textureIDs s !! j) /\
    m_objectMaterials s' = m_objectMaterials s /\
    m_pShaderManager s' = m_pShaderManager s.
Proof.
  intros Himg Hch Hok Hn.
  pose proof Hok as [Hlen Hcount].
  destruct (CreateGLTexture_registers filename tg img s Himg Hch)
    as (s' & Hrun & Hcount' & Harr' & Hmats' & Hsh'); [lia|].
  destruct (registry_ok_lookup s (m_loadedTextures s) Hok) as [e He]; [lia|].
  exists s'. split; [exact Hrun|].
  unfold TEXTURE_CAPACITY in *.
  split_and!.
  - split; [rewrite Harr', length_alter; exact Hlen | unfold TEXTURE_CAPACITY; lia].
  - exact Hcount'.
  - unfold registered. rewrite Hcount', Harr'.
    replace (Z.to_nat (m_loadedTextures s + 1))
      with (S (Z.to_nat (m_loadedTextures s))) by lia.
    rewrite (take_S_r _ _ {| tag := tg; ID := gl_fresh_name (gl_context s) |}).
    + rewrite take_alter_ge by lia. reflexivity.
    + rewrite list_lookup_alter_eq, He. reflexivity.
  - intros j Hj. rewrite Harr'. apply list_lookup_alter_ne. congruence.
  - exact Hmats'.
  - exact Hsh'.
Qed.

(** C4, amended. When the image decodes with 3 or 4 channels and fewer than
    16 textures are loaded, [CreateGLTexture] returns [true] and registers
    exactly one new texture: the loaded count grows by one, the entry at the
    old count carries the given tag and the generated name, and every other
    entry of the array is unchanged. *)
Theorem CreateGLTexture_registers_one (filename tg : string) (img : stbi_image)
    (s : SceneManager) :
  stbi_load true filename = Some img ->
  colorChannels img = 3 \/ colorChannels img = 4 ->
  registry_ok s ->
  m_loadedTextures s < TEXTURE_CAPACITY ->
  exists s',
    CreateGLTexture filename tg s = Some (true, s') /\
    m_loadedTextures s' = m_loadedTextures s + 1 /\
    m_textureIDs s' !! Z.to_nat (m_loadedTextures s)
      = Some {| tag := tg; ID := gl_fresh_name (gl_context s) |} /\
    registered s' =
      registered s ++ [{| tag := tg; ID := gl_fresh_name (gl_context s) |}] /\
    (forall j, j <> Z.to_nat (m_loadedTextures s) ->
               m_textureIDs s' !! j = m_textureIDs s !! j).
Proof.
  intros Himg Hch Hok Hn.
  destruct (CreateGLTexture_appends filename tg img s Himg Hch Hok Hn)
    as (s' & Hrun & Hok' & Hcount' & Hreg' & Hrest & _).
  exists s'. split_and!; try assumption.
  assert (Hlast : registered s' !! Z.to_nat (m_loadedTextures s)
                  = Some {| tag := tg; ID := gl_fresh_name (gl_context s) |}).
  { rewrite Hreg'. destruct Hok as [Hlen [Hlo Hhi]].
    unfold TEXTURE_CAPACITY in *.
    rewrite lookup_app_r; unfold registered; rewrite length_take; [|lia].
    replace (_ - _)%nat with 0%nat by lia. reflexivity. }
  unfold registered in Hlast. apply lookup_take_Some in Hlast. apply Hlast.
Qed.

(** Every run of [CreateGLTexture] that is defined keeps the registry in
    order. *)
Lemma CreateGLTexture_keeps_registry_ok (filename tg : string)
    (s s' : SceneManager)
    (b : bool) :
  registry_ok s ->
  CreateGLTexture filename tg s = Some (b, s') ->
  registry_ok s'.
Proof.
  intros Hok Hrun. unfold Scene.CreateGLTexture in Hrun.
  destruct (stbi_load true filename) as [img|] eqn:Himg.
  - destruct (Z.eqb_spec (colorChannels img) 3) as [H3|H3];
      [|destruct (Z.eqb_spec (colorChannels img) 4) as [H4|H4]].
    3: { injection Hrun as _ <-. exact Hok. }
    all: destruct (Z_lt_dec (m_loadedTextures s) TEXTURE_CAPACITY) as [Hn|Hn].
    all: try (destruct (CreateGLTexture_appends filename tg img s Himg
                (ltac:(auto)) Hok Hn) as (s1 & Hrun1 & Hok1 & _);
              unfold Scene.CreateGLTexture in Hrun1; rewrite Himg in Hrun1;
              first [rewrite H3 in Hrun1, Hrun | rewrite H4 in Hrun1, Hrun];
              simpl in Hrun1, Hrun; rewrite Hrun in Hrun1;
              injection Hrun1 as _ <-; exact Hok1).
    all: exfalso; revert Hrun;
      unfold bind, cout, gl, gen_texture, modify, gets, write_texture, ret; simpl;
      replace (in_texture_array (m_loadedTextures s)) with false
        by (symmetry; unfold in_texture_array; apply andb_false_intro2, Z.ltb_ge; lia);
      discriminate.
  - injection Hrun as _ <-. exact Hok.
Qed.

(** *** The slot search *)
Lemma first_index_cons (tg t : string) (ts : list string) :
  first_index tg (t :: ts) =
  if bool_decide (t = tg) then Some 0%nat else S <$> first_index tg ts.
Proof.
  unfold first_index. simpl.
  case_bool_decide; destruct (decide (t = tg)); try contradiction; simpl.
  - reflexivity.
  - destruct (list_find _ ts) as [[i x]|]; reflexivity.
Qed.

Lemma FindTextureSlot_loop_scan (arr : list TEXTURE_INFO) (loaded : Z)
    (tg : string) (k : nat) :
  length arr = 16%nat -> loaded <= TEXTURE_CAPACITY ->
  forall index textureSlot,
    0 <= index -> index + Z.of_nat k = loaded ->
    FindTextureSlot_loop arr loaded tg textureSlot index false =
    Some (match first_index tg
                  (tag <$> drop (Z.to_nat index) (take (Z.to_nat loaded) arr)) with
          | Some j => index + Z.of_nat j
          | None => textureSlot
          end).
Proof.
  intros Hlen Hcap. unfold TEXTURE_CAPACITY in Hcap.
  induction k as [|k IH]; intros index textureSlot Hlo Hk;
    rewrite FindTextureSlot_loop_eq.
  - replace (index <? loaded) with false by (symmetry; apply Z.ltb_ge; lia).
    simpl. rewrite drop_ge; [reflexivity|]. rewrite length_take. lia.
  - replace (index <? loaded) with true by (symmetry; apply Z.ltb_lt; lia).
    simpl.
    destruct (lookup_lt_is_Some_2 arr (Z.to_nat index)) as [e He]; [lia|].
    unfold array_read, in_texture_array, TEXTURE_CAPACITY.
    replace ((0 <=? index) && (index <? 16)) with true
      by (symmetry; apply andb_true_intro; split; lia).
    rewrite He.
    rewrite (drop_S _ e) by (rewrite lookup_take_lt by lia; exact He).
    rewrite fmap_cons, first_index_cons, string_compare_eqb.
    case_bool_decide.
    + rewrite FindTextureSlot_loop_found. f_equal. lia.
    + rewrite IH by lia.
      replace (Z.to_nat (index + 1)) with (S (Z.to_nat index)) by lia.
      destruct (first_index tg _); simpl; f_equal; lia.
Qed.

Lemma FindTextureSlot_spec (tg : string) (s : SceneManager) :
  registry_ok s ->
  FindTextureSlot tg s =
  Some (match first_index tg (registered_tags s) with
        | Some j => Z.of_nat j
        | None => -1
        end, s).
Proof.
  intros [Hlen [Hlo Hhi]]. unfold FindTextureSlot, lift_read.
  rewrite (FindTextureSlot_loop_scan _ _ _ (Z.to_nat (m_loadedTextures s)))
    by (try assumption; lia).
  simpl. rewrite drop_0. reflexivity.
Qed.

(** [FindTextureID] runs the same scan and returns the GL name stored in
    the entry it stops at. *)
Lemma FindTextureID_loop_found (arr : list TEXTURE_INFO) loaded tg textureID
    index :
  FindTextureID_loop arr loaded tg textureID index true = Some textureID.
Proof. rewrite FindTextureID_loop_eq, andb_false_r. reflexivity. Qed.

Lemma first_texture_cons (tg : string) (e : TEXTURE_INFO)
    (es : list TEXTURE_INFO) :
  first_texture tg (e :: es) =
  if bool_decide (tag e = tg) then Some e else first_texture tg es.
Proof.
  unfold first_texture. simpl.
  case_bool_decide; destruct (decide (tag e = tg)); try contradiction; simpl.
  - reflexivity.
  - destruct (list_find _ es) as [[i x]|]; reflexivity.
Qed.

Lemma FindTextureID_loop_scan (arr : list TEXTURE_INFO) (loaded : Z)
    (tg : string) (k : nat) :
  length arr = 16%nat -> loaded <= TEXTURE_CAPACITY ->
  forall index textureID,
    0 <= index -> index + Z.of_nat k = loaded ->
    FindTextureID_loop arr loaded tg textureID index false =
    Some (match first_texture tg
                  (drop (Z.to_nat index) (take (Z.to_nat loaded) arr)) with
          | Some e => ID e
          | None => textureID
          end).
Proof.
  intros Hlen Hcap. unfold TEXTURE_CAPACITY in Hcap.
  induction k as [|k IH]; intros index textureID Hlo Hk;
    rewrite FindTextureID_loop_eq.
  - replace (index <? loaded) with false by (symmetry; apply Z.ltb_ge; lia).
    simpl. rewrite drop_ge; [reflexivity|]. rewrite length_take. lia.
  - replace (index <? loaded) with true by (symmetry; apply Z.ltb_lt; lia).
    simpl.
    destruct (lookup_lt_is_Some_2 arr (Z.to_nat index)) as [e He]; [lia|].
    unfold array_read, in_texture_array, TEXTURE_CAPACITY.
    replace ((0 <=? index) && (index <? 16)) with true
      by (symmetry; apply andb_true_intro; split; lia).
    rewrite He.
    rewrite (drop_S _ e) by (rewrite lookup_take_lt by lia; exact He).
    rewrite first_texture_cons, string_compare_eqb.
    case_bool_decide.
    + apply FindTextureID_loop_found.
    + rewrite IH by lia.
      replace (Z.to_nat (index + 1)) with (S (Z.to_nat index)) by lia.
      reflexivity.
Qed.

Lemma FindTextureID_spec (tg : string) (s : SceneManager) :
  registry_ok s ->
  FindTextureID tg s =
  Some (match first_texture tg (registered s) with
        | Some e => ID e
        | None => -1
        end, s).
Proof.
  intros [Hlen [Hlo Hhi]]. unfold FindTextureID, lift_read.
  rewrite (FindTextureID_loop_scan _ _ _ (Z.to_nat (m_loadedTextures s)))
    by (try assumption; lia).
  simpl. rewrite drop_0. reflexivity.
Qed.

Lemma first_index_NoDup (tags : list string) (i : nat) (tg : string) :
  NoDup tags -> tags !! i = Some tg -> first_index tg tags = Some i.
Proof.
  intros Hnd Hi. unfold first_index.
  assert (Hfind : list_find (fun t => t = tg) tags = Some (i, tg)).
  { apply list_find_Some. repeat split; [exact Hi|].
    intros j y Hj Hlt ->. pose proof (NoDup_lookup _ _ _ _ Hnd Hi Hj). lia. }
  rewrite Hfind. reflexivity.
Qed.

Lemma first_index_absent (tags : list string) (tg : string) :
  tg ∉ tags -> first_index tg tags = None.
Proof.
  intros Hnot. unfold first_index.
  assert (Hfind : list_find (fun t => t = tg) tags = None).
  { apply list_find_None. apply Forall_forall. intros x Hx ->. contradiction. }
  rewrite Hfind. reflexivity.
Qed.


Abbreviation load_textures := (Scene.load_textures stbi_load gl_fresh_name).
Abbreviation decodes_rgb_or_rgba := (Scene.decodes_rgb_or_rgba stbi_load).

Lemma load_textures_appends (loads : list (string * string)) :
  forall s : SceneManager,
    registry_ok s ->
    m_loadedTextures s + Z.of_nat (length loads) <= TEXTURE_CAPACITY ->
    Forall (fun l => decodes_rgb_or_rgba (fst l)) loads ->
    exists s',
      load_textures loads s = Some (replicate (length loads) true, s') /\
      registry_ok s' /\
      registered_tags s' = registered_tags s ++ (snd <$> loads).
Proof.
  induction loads as [|[filename tg] rest IH]; intros s Hok Hroom Hdec.
  - exists s. simpl. rewrite app_nil_r. repeat split; apply Hok.
  - apply Forall_cons in Hdec as [(img & Himg & Hch) Hrest].
    simpl in Hroom.
    destruct (CreateGLTexture_appends filename tg img s Himg Hch Hok)
      as (s1 & Hrun1 & Hok1 & Hcount1 & Hreg1 & _); [lia|].
    destruct (IH s1 Hok1) as (s' & Hrun & Hok' & Hreg'); [lia | exact Hrest |].
    exists s'. split; [|split; [exact Hok'|]].
    + simpl. unfold bind at 1. rewrite Hrun1.
      unfold bind at 1. rewrite Hrun. reflexivity.
    + rewrite Hreg'. unfold registered_tags at 1. rewrite Hreg1.
      rewrite fmap_app, <- app_assoc. reflexivity.
Qed.

Lemma new_SceneManager_ok pShaderManager context out :
  registry_ok (new_SceneManager (T := T) pShaderManager context out) /\
  registered_tags (new_SceneManager (T := T) pShaderManager context out) = [].
Proof.
  unfold registry_ok, TEXTURE_CAPACITY. simpl. split_and!; [reflexivity | lia | lia | reflexivity].
Qed.

(** C6, amended. After any sequence of at most 16 successful registrations
    with pairwise-distinct tags, starting from a freshly constructed scene
    manager, [FindTextureSlot] returns for each registered tag its position
    in the registration order, and [-1] for every tag that was not
    registered. *)
Theorem FindTextureSlot_after_registrations (loads : list (string * string))
    pShaderManager context out :
  (length loads <= 16)%nat ->
  Forall (fun l => decodes_rgb_or_rgba (fst l)) loads ->
  NoDup (snd <$> loads) ->
  exists s : SceneManager,
    load_textures loads (new_SceneManager pShaderManager context out)
      = Some (replicate (length loads) true, s) /\
    (forall (i : nat) (tg : string),
        (snd <$> loads) !! i = Some tg ->
        FindTextureSlot tg s = Some (Z.of_nat i, s)) /\
    (forall tg : string,
        tg ∉ (snd <$> loads) -> FindTextureSlot tg s = Some (-1, s)).
Proof.
  intros Hlen Hdec Hnd.
  destruct (new_SceneManager_ok pShaderManager context out) as [Hok0 Hreg0].
  destruct (load_textures_appends loads _ Hok0) as (s & Hrun & Hok & Hreg).
  { simpl. unfold TEXTURE_CAPACITY. lia. }
  { exact Hdec. }
  rewrite Hreg0 in Hreg. simpl in Hreg.
  exists s. split; [exact Hrun|]. split.
  - intros i tg Hi. rewrite FindTextureSlot_spec by exact Hok.
    rewrite Hreg, (first_index_NoDup _ i) by assumption. reflexivity.
  - intros tg Hnot. rewrite FindTextureSlot_spec by exact Hok.
    rewrite Hreg, first_index_absent by assumption. reflexivity.
Qed.

(** *** What the shader manager receives *)
Lemma shader_received_nil (s : SceneManager) :
  m_pShaderManager s = None -> forall cs, shader_received cs s = s.
Proof. intros Hnull cs. destruct s. simpl in *. subst. reflexivity. Qed.

Lemma if_shader_null (m : M unit) (s : SceneManager) :
  m_pShaderManager s = None -> if_shader m s = Some (tt, s).
Proof. intros Hnull. unfold if_shader, bind, gets. rewrite Hnull. reflexivity. Qed.

Lemma if_shader_present (m : M unit) (s : SceneManager) log :
  m_pShaderManager s = Some log -> if_shader m s = m s.
Proof. intros Hp. unfold if_shader, bind, gets. rewrite Hp. reflexivity. Qed.

Lemma shader_call_received (c : shader_call) (s : SceneManager) log :
  m_pShaderManager s = Some log ->
  shader c s = Some (tt, shader_received [c] s).
Proof.
  intros Hp. unfold shader, shader_received. rewrite Hp. reflexivity.
Qed.

Lemma shader_received_app (cs1 cs2 : list shader_call) (s : SceneManager) :
  shader_received cs2 (shader_received cs1 s) = shader_received (cs1 ++ cs2) s.
Proof.
  destruct s as [[log|] ? ? ? ? ? ?]; unfold shader_received; simpl;
    [rewrite <- app_assoc|]; reflexivity.
Qed.

Lemma if_shader_call (c : shader_call) (s : SceneManager) :
  if_shader (shader c) s = Some (tt, shader_received [c] s).
Proof.
  destruct (m_pShaderManager s) as [log|] eqn:Hp.
  - rewrite (if_shader_present _ _ log Hp). exact (shader_call_received c s log Hp).
  - rewrite if_shader_null, shader_received_nil by exact Hp. reflexivity.
Qed.

Lemma product_is_mat4_mul (a b : glm.mat4 T) : Spec.product a b = glm.mat4_mul a
    b.
Proof. reflexivity. Qed.

(** C3. For every scale, rotation angles and translation,
    [SetTransformations] hands the shader manager (when there is one) the
    [model] matrix translation x rotateZ x rotateY x rotateX x scale of the
    elementary transforms of its arguments, and nothing else. *)
Theorem SetTransformations_sends_model_matrix (scaleXYZ : glm.vec3 T)
    (XrotationDegrees YrotationDegrees ZrotationDegrees : T)
    (positionXYZ : glm.vec3 T) (s : SceneManager) :
  SetTransformations scaleXYZ XrotationDegrees YrotationDegrees
                     ZrotationDegrees positionXYZ s
  = Some (tt, shader_received
                [setMat4Value "model"
                   (Spec.model_matrix scaleXYZ XrotationDegrees YrotationDegrees
                                      ZrotationDegrees positionXYZ)] s).
Proof.
  unfold SetTransformations. rewrite if_shader_call. reflexivity.
Qed.

(** C10. For a tag that is not in the registry, [SetShaderTexture] still
    sets [bUseTexture] to true and then sets the sampler [objectTexture] to
    the sentinel [-1]. *)
Theorem SetShaderTexture_unknown_tag (textureTag : string) (s : SceneManager) :
  registry_ok s ->
  textureTag ∉ registered_tags s ->
  SetShaderTexture textureTag s
  = Some (tt, shader_received [setIntValue "bUseTexture" 1;
                               setSampler2DValue "objectTexture" (-1)] s).
Proof.
  intros Hok Hnot. unfold SetShaderTexture.
  destruct (m_pShaderManager s) as [log|] eqn:Hp.
  - rewrite (if_shader_present _ _ log Hp). unfold bind at 1.
    rewrite (shader_call_received _ s log Hp). unfold bind at 1.
    rewrite FindTextureSlot_spec.
    + replace (registered_tags (shader_received _ s)) with (registered_tags s)
        by reflexivity.
      rewrite first_index_absent by exact Hnot.
      rewrite (shader_call_received _ _ (log ++ [setIntValue g_UseTextureName 1])).
      * rewrite shader_received_app. reflexivity.
      * unfold shader_received. simpl. rewrite Hp. reflexivity.
    + exact Hok.
  - rewrite if_shader_null, shader_received_nil by exact Hp. reflexivity.
Qed.


(** *** The identity transform *)
Section Identity.
Context `{!UnitArith T}.

Create Rewrite HintDb unit_arith.
#[local] Hint Rewrite (@add_0_0 T _ _) (@add_0_1 T _ _) (@add_1_0 T _ _)
  (@sub_0_0 T _ _) (@sub_1_1 T _ _) (@mul_0_0 T _ _) (@mul_0_1 T _ _)
  (@mul_1_0 T _ _) (@mul_1_1 T _ _) (@div_1_1 T _ _) (@sqrt_1 T _ _)
  (@cos_0 T _ _) (@sin_0 T _ _) (@mul_0_deg T _ _) : unit_arith.

Ltac unit_arith :=
  cbv [glm.scale glm.rotate glm.translate glm.scale_m glm.rotate_m
       glm.translate_m glm.identity glm.mat4_diag glm.normalize glm.dot
       glm.inversesqrt glm.vec3_scale glm.scalar_vec3 glm.vec4_scale
       glm.vec4_add glm.radians glm.mat4_mul glm.mat4_mul_col
       glm.col0 glm.col1 glm.col2 glm.col3 glm.x4 glm.y4 glm.z4 glm.w4
       glm.x3 glm.y3 glm.z3];
  repeat (autorewrite with unit_arith; cbv beta iota zeta);
  reflexivity.

Lemma scale_ones : glm.scale (glm.Vec3 (lit 1) (lit 1) (lit 1)) = glm.identity
    (T := T).
Proof. unit_arith. Qed.

Lemma translate_zeros :
  glm.translate (glm.Vec3 (lit 0) (lit 0) (lit 0)) = glm.identity (T := T).
Proof. unit_arith. Qed.

Lemma rotateX_zero : Spec.rotateX (lit 0) = glm.identity (T := T).
Proof. unfold Spec.rotateX. unit_arith. Qed.

Lemma rotateY_zero : Spec.rotateY (lit 0) = glm.identity (T := T).
Proof. unfold Spec.rotateY. unit_arith. Qed.

Lemma rotateZ_zero : Spec.rotateZ (lit 0) = glm.identity (T := T).
Proof. unfold Spec.rotateZ. unit_arith. Qed.

Lemma identity_squared : Spec.product glm.identity glm.identity = glm.identity
    (T := T).
Proof. rewrite product_is_mat4_mul. unit_arith. Qed.

Lemma model_matrix_identity :
  Spec.model_matrix (glm.Vec3 (lit 1) (lit 1) (lit 1)) (lit 0) (lit 0) (lit 0)
                    (glm.Vec3 (lit 0) (lit 0) (lit 0))
  = Spec.identity_matrix (T := T).
Proof.
  unfold Spec.model_matrix, Spec.translation, Spec.scale_matrix.
  rewrite scale_ones, translate_zeros, rotateX_zero, rotateY_zero, rotateZ_zero.
  rewrite !identity_squared. reflexivity.
Qed.

(** C7. With scale (1,1,1), rotations of 0 degrees about X, Y and Z and
    translation (0,0,0), the matrix [SetTransformations] sends is the 4x4
    identity matrix. *)
Theorem SetTransformations_identity (s : SceneManager) :
  SetTransformations (glm.Vec3 (lit 1) (lit 1) (lit 1)) (lit 0) (lit 0) (lit 0)
                     (glm.Vec3 (lit 0) (lit 0) (lit 0)) s
  = Some (tt, shader_received [setMat4Value "model" Spec.identity_matrix] s).
Proof.
  unfold SetTransformations. rewrite if_shader_call.
  change (glm.mat4_mul _ _) with
    (Spec.model_matrix (T := T) (glm.Vec3 (lit 1) (lit 1) (lit 1))
       (lit 0) (lit 0) (lit 0) (glm.Vec3 (lit 0) (lit 0) (lit 0))).
  rewrite model_matrix_identity. reflexivity.
Qed.
End Identity.

(** *** Methods that leave the registry and the materials alone *)
Lemma same_collections_refl (s : SceneManager) : same_collections s s.
Proof. repeat split. Qed.

Lemma same_collections_trans (s1 s2 s3 : SceneManager) :
  same_collections s1 s2 -> same_collections s2 s3 -> same_collections s1 s3.
Proof.
  unfold same_collections. intros (-> & -> & ->) (-> & -> & ->). repeat split.
Qed.

Lemma preserves_ret {A} (a : A) : preserves_collections (ret (T := T) a).
Proof. intros s a' s' [= _ <-]. apply same_collections_refl. Qed.

Lemma preserves_bind {A B} (m : M A) (f : A -> M B) :
  preserves_collections m -> (forall a, preserves_collections (f a)) ->
  preserves_collections (bind m f).
Proof.
  intros Hm Hf s b s' Hrun. unfold bind in Hrun.
  destruct (m s) as [[a s1]|] eqn:Hms; [|discriminate].
  eapply same_collections_trans; [eapply Hm | eapply Hf]; eassumption.
Qed.

Lemma preserves_gets {A} (f : SceneManager -> A) :
  preserves_collections (gets f).
Proof. intros s a s' [= _ <-]. apply same_collections_refl. Qed.

Lemma preserves_lift_read {A} (r : SceneManager -> option A) :
  preserves_collections (lift_read r).
Proof.
  intros s a s' Hrun. unfold lift_read in Hrun.
  destruct (r s); [|discriminate]. injection Hrun as _ <-.
  apply same_collections_refl.
Qed.

Lemma preserves_shader (c : shader_call) : preserves_collections (shader c).
Proof.
  intros s a s' Hrun. unfold shader in Hrun.
  destruct (m_pShaderManager s); [|discriminate]. injection Hrun as _ <-.
  repeat split.
Qed.

Lemma preserves_mesh (c : mesh_call) : preserves_collections (mesh (T := T) c).
Proof. intros s a s' [= _ <-]. repeat split. Qed.

Lemma preserves_if_shader (m : M unit) :
  preserves_collections m -> preserves_collections (if_shader (T := T) m).
Proof.
  intros Hm. unfold if_shader. apply preserves_bind; [apply preserves_gets|].
  intros [log|]; [exact Hm | apply preserves_ret].
Qed.

Create HintDb frame.
#[local] Hint Resolve preserves_ret preserves_gets preserves_lift_read
  preserves_shader preserves_mesh : frame.
#[local] Hint Extern 2 (preserves_collections (bind _ _)) =>
  apply preserves_bind; [|intro] : frame.
#[local] Hint Extern 2 (preserves_collections (if_shader _)) =>
  apply preserves_if_shader : frame.

Lemma preserves_FindTextureSlot tg : preserves_collections
    (FindTextureSlot (T := T) tg).
Proof. apply preserves_lift_read. Qed.

Lemma preserves_FindMaterial tg material :
  preserves_collections (FindMaterial (T := T) tg material).
Proof.
  unfold FindMaterial. apply preserves_bind; [auto with frame|].
  intros mats. destruct (_ =? 0); auto with frame.
Qed.

Lemma preserves_SetTransformations scaleXYZ rx ry rz positionXYZ :
  preserves_collections (SetTransformations (T := T) scaleXYZ rx ry rz positionXYZ).
Proof. unfold SetTransformations. auto with frame. Qed.

Lemma preserves_SetShaderColor r g b a :
  preserves_collections (SetShaderColor (T := T) r g b a).
Proof. unfold SetShaderColor. auto with frame. Qed.

Lemma preserves_SetShaderTexture tg :
  preserves_collections (SetShaderTexture (T := T) tg).
Proof.
  unfold SetShaderTexture.
  pose proof (preserves_FindTextureSlot tg). auto 7 with frame.
Qed.

Lemma preserves_SetShaderMaterial tg :
  preserves_collections (SetShaderMaterial indeterminate tg).
Proof.
  unfold SetShaderMaterial. apply preserves_bind; [auto with frame|].
  intros mats. destruct (0 <? _); [|auto with frame].
  apply preserves_bind; [apply preserves_FindMaterial|].
  intros [b m]. simpl. destruct (Bool.eqb b true); auto 7 with frame.
Qed.

#[local] Hint Resolve preserves_SetTransformations preserves_SetShaderColor
  preserves_SetShaderTexture preserves_SetShaderMaterial : frame.

(** C8. From every state from which [RenderScene] returns, the texture
    array (tags and IDs), the loaded count and the material list after the
    call are those before it. *)
Theorem RenderScene_preserves_collections (s s' : SceneManager) (u : unit) :
  RenderScene indeterminate s = Some (u, s') -> same_collections s s'.
Proof.
  revert s u s'. change (preserves_collections (RenderScene indeterminate)).
  unfold RenderScene. cbv zeta.
  repeat (apply preserves_bind; [solve [auto with frame] | intros _]).
  auto with frame.
Qed.


(** *** Rendering returns *)
Lemma ready_shader_received (cs : list shader_call) (s : SceneManager) :
  ready s -> ready (shader_received cs s).
Proof.
  intros [Hok [log Hp]]. split; [exact Hok|].
  unfold shader_received. simpl. rewrite Hp. eexists. reflexivity.
Qed.

Lemma returns_ret {A} (a : A) : returns_ready (ret (T := T) a).
Proof. intros s Hs. exists a, s. split; [reflexivity | exact Hs]. Qed.

Lemma returns_bind {A B} (m : M A) (f : A -> M B) :
  returns_ready m -> (forall a, returns_ready (f a)) -> returns_ready (bind m f).
Proof.
  intros Hm Hf s Hs. destruct (Hm s Hs) as (a & s1 & Hrun1 & Hs1).
  destruct (Hf a s1 Hs1) as (b & s2 & Hrun2 & Hs2).
  exists b, s2. split; [|exact Hs2]. unfold bind. rewrite Hrun1. exact Hrun2.
Qed.

Lemma returns_gets {A} (f : SceneManager -> A) : returns_ready (gets f).
Proof. intros s Hs. exists (f s), s. split; [reflexivity | exact Hs]. Qed.

Lemma returns_shader (c : shader_call) : returns_ready (shader c).
Proof.
  intros s Hs. pose proof Hs as [_ [log Hp]].
  exists tt, (shader_received [c] s).
  split; [exact (shader_call_received c s log Hp) | apply ready_shader_received, Hs].
Qed.

Lemma returns_mesh (c : mesh_call) : returns_ready (mesh (T := T) c).
Proof. intros s Hs. do 2 eexists. split; [reflexivity | exact Hs]. Qed.

Lemma returns_if_shader (m : M unit) :
  returns_ready m -> returns_ready (if_shader m).
Proof.
  intros Hm s Hs. pose proof Hs as [_ [log Hp]].
  rewrite (if_shader_present _ _ log Hp). exact (Hm s Hs).
Qed.

Lemma returns_FindTextureSlot tg : returns_ready (FindTextureSlot (T := T) tg).
Proof.
  intros s Hs. rewrite FindTextureSlot_spec by apply Hs.
  do 2 eexists. split; [reflexivity | exact Hs].
Qed.

Lemma returns_FindMaterial tg material :
  returns_ready (FindMaterial (T := T) tg material).
Proof.
  intros s Hs. rewrite FindMaterial_spec.
  do 2 eexists. split; [reflexivity | exact Hs].
Qed.

Create HintDb returns.
#[local] Hint Resolve returns_ret returns_gets returns_shader returns_mesh
  returns_FindTextureSlot returns_FindMaterial : returns.
#[local] Hint Extern 2 (returns_ready (bind _ _)) =>
  apply returns_bind; [|intro] : returns.
#[local] Hint Extern 2 (returns_ready (if_shader _)) =>
  apply returns_if_shader : returns.

Lemma returns_SetTransformations scaleXYZ rx ry rz positionXYZ :
  returns_ready (SetTransformations (T := T) scaleXYZ rx ry rz positionXYZ).
Proof. unfold SetTransformations. auto with returns. Qed.

Lemma returns_SetShaderColor r g b a :
  returns_ready (SetShaderColor (T := T) r g b a).
Proof. unfold SetShaderColor. auto with returns. Qed.

Lemma returns_SetShaderTexture tg : returns_ready
    (SetShaderTexture (T := T) tg).
Proof. unfold SetShaderTexture. auto 7 with returns. Qed.

Lemma returns_SetShaderMaterial tg :
  returns_ready (SetShaderMaterial indeterminate tg).
Proof.
  unfold SetShaderMaterial. apply returns_bind; [auto with returns|].
  intros mats. destruct (0 <? _); [|auto with returns].
  apply returns_bind; [auto with returns|].
  intros [b m]. simpl. destruct (Bool.eqb b true); auto 7 with returns.
Qed.

#[local] Hint Resolve returns_SetTransformations returns_SetShaderColor
  returns_SetShaderTexture returns_SetShaderMaterial : returns.

Lemma RenderScene_returns (s : SceneManager) :
  ready s -> exists s', RenderScene indeterminate s = Some (tt, s') /\ ready s'.
Proof.
  intros Hs.
  assert (Hrun : returns_ready (RenderScene indeterminate)).
  { unfold RenderScene. cbv zeta.
    repeat (apply returns_bind; [solve [auto with returns] | intros _]).
    auto with returns. }
  destruct (Hrun s Hs) as ([] & s' & Hs'). exists s'. exact Hs'.
Qed.

End Properties.

(* ===================================================================== *)
(** * Exact arithmetic *)
(* ===================================================================== *)

Lemma Q2R_zero : Q2R 0 = 0%R.
Proof. unfold Q2R. simpl. lra. Qed.

Lemma Q2R_one : Q2R 1 = 1%R.
Proof. unfold Q2R. simpl. lra. Qed.

(** The real numbers satisfy the unit arithmetic the identity transform
    needs. *)
#[export] Instance R_UnitArith : UnitArith R.
Proof.
  split; cbn [lit add sub mul div sqrt cos sin R_Scalar];
    rewrite ?Q2R_zero, ?Q2R_one.
  all: first [lra | apply R_sqrt.sqrt_1 | apply Rtrigo_def.cos_0
              | apply Rtrigo_def.sin_0].
Qed.

(** Over the reals the matrices GLM builds are the textbook ones, so the
    model matrix is the textbook product T * Rz * Ry * Rx * S. *)
Section Exact.











End Exact.

(* ===================================================================== *)
(** * The scene on concrete inputs *)
(* ===================================================================== *)

Section Concrete.
Import Examples.

Ltac by_evaluation := apply (bool_decide_unpack _); vm_compute; exact I.

(** ** The states used below *)
Lemma fresh_ok : registry_ok fresh.
Proof. apply new_SceneManager_ok. Qed.

Lemma sixteen_loads_run :
  load_textures decoder driver sixteen_loads fresh = Some (replicate 16 true, full).
Proof. vm_compute. reflexivity. Qed.

Lemma full_ok : registry_ok full /\ m_loadedTextures full = 16.
Proof. vm_compute. repeat split; discriminate. Qed.

Lemma sixteen_loads_decode :
  Forall (fun l => decodes_rgb_or_rgba decoder (fst l)) sixteen_loads.
Proof.
  unfold sixteen_loads.
  repeat (apply Forall_cons; split;
          [eexists; split; [reflexivity | vm_compute; auto] |]).
  apply Forall_nil. exact I.
Qed.

Lemma seventeen_tags_distinct : NoDup (snd <$> seventeen_loads).
Proof. by_evaluation. Qed.

Lemma prepared_ready : ready prepared.
Proof. vm_compute. repeat split; try discriminate. eexists. reflexivity. Qed.

Lemma prepared_tags :
  registered_tags prepared =
  ["desk"; "keyboard"; "rest"; "notebook"; "metal"; "wood"; "pencil";
   "metal1"; "eraser"]%string.
Proof. vm_compute. reflexivity. Qed.

(** ** Material lookup *)

(** C1. The eight scene materials do not include a material tagged
    [glass], yet looking it up reports [true] and leaves the caller's
    material as it was. *)
Theorem FindMaterial_absent_tag_reports_true :
  length (m_objectMaterials with_materials) = 8%nat /\
  ("glass"%string ∉ (material_tag <$> m_objectMaterials with_materials)) /\
  FindMaterial "glass" garbage with_materials
    = Some ((true, garbage), with_materials).
Proof.
  split; [reflexivity|]. split; [by_evaluation|]. vm_compute. reflexivity.
Qed.

(** As a consequence [SetShaderMaterial] sends the shader whatever the
    unassigned local held. *)
Lemma SetShaderMaterial_absent_tag_sends_indeterminate :
  SetShaderMaterial garbage "glass" with_materials
  = Some (tt, shader_received
                [setVec3Value "material.diffuseColor" (diffuseColor garbage);
                 setVec3Value "material.specularColor" (specularColor garbage);
                 setFloatValue "material.shininess" (shininess garbage)]
                with_materials).
Proof. vm_compute. reflexivity. Qed.

(** ** Texture loading *)

Lemma CreateGLTexture_unsupported_channels_witness :
  decoder true "textures/grey.png" = Some (image 1) /\
  exists s',
    CreateGLTexture decoder driver "textures/grey.png" "grey" fresh
      = Some (false, s') /\
    same_collections fresh s'.
Proof.
  split; [reflexivity|].
  apply (CreateGLTexture_unsupported_channels decoder driver
           "textures/grey.png" "grey" (image 1) fresh).
  - reflexivity.
  - discriminate.
  - discriminate.
Defined.

Lemma CreateGLTexture_registers_one_witness :
  exists s',
    CreateGLTexture decoder driver "textures/glass.png" "glass" prepared
      = Some (true, s') /\
    m_loadedTextures s' = m_loadedTextures prepared + 1 /\
    m_textureIDs s' !! Z.to_nat (m_loadedTextures prepared)
      = Some {| tag := "glass"; ID := driver (gl_context prepared) |} /\
    registered s' =
      registered prepared
        ++ [{| tag := "glass"; ID := driver (gl_context prepared) |}] /\
    (forall j, j <> Z.to_nat (m_loadedTextures prepared) ->
               m_textureIDs s' !! j = m_textureIDs prepared !! j).
Proof.
  apply (CreateGLTexture_registers_one decoder driver
           "textures/glass.png" "glass" (image 4) prepared).
  - reflexivity.
  - right. reflexivity.
  - apply prepared_ready.
  - vm_compute. reflexivity.
Defined.

(** C4, as stated, fails on a full registry: the file decodes to an RGB
    image, sixteen textures are loaded, and the call has no defined
    result, so it does not return [true] with one more entry. *)
Lemma CreateGLTexture_full_registry_undefined :
  decoder true "textures/lamp.jpg" = Some (image 3) /\
  colorChannels (image 3) = 3 /\
  registry_ok full /\ m_loadedTextures full = 16 /\
  CreateGLTexture decoder driver "textures/lamp.jpg" "lamp" full = None /\
  ~ exists s',
      CreateGLTexture decoder driver "textures/lamp.jpg" "lamp" full
        = Some (true, s') /\
      m_loadedTextures s' = m_loadedTextures full + 1.
Proof.
  assert (Hnone : CreateGLTexture decoder driver "textures/lamp.jpg" "lamp" full
                  = None) by (vm_compute; reflexivity).
  split; [reflexivity|]. split; [reflexivity|].
  split; [apply full_ok|]. split; [apply full_ok|]. split; [exact Hnone|].
  intros (s' & Hrun & _). rewrite Hnone in Hrun. discriminate Hrun.
Qed.

(** C5. Sixteen loads from a fresh scene manager succeed and fill the
    array; the seventeenth successful decode makes [CreateGLTexture] write
    at index 16, outside the array. *)
Theorem seventeenth_load_writes_out_of_range :
  load_textures decoder driver sixteen_loads fresh
    = Some (replicate 16 true, full) /\
  m_loadedTextures full = 16 /\
  decoder true (fst seventeenth) = Some (image 3) /\
  in_texture_array (m_loadedTextures full) = false /\
  CreateGLTexture decoder driver (fst seventeenth) (snd seventeenth) full = None /\
  load_textures decoder driver seventeen_loads fresh = None.
Proof. vm_compute. repeat split. Qed.

(** ** Slot lookup *)

Lemma FindTextureSlot_after_registrations_witness :
  exists s : SceneManager R,
    load_textures decoder driver sixteen_loads fresh
      = Some (replicate (length sixteen_loads) true, s) /\
    (forall (i : nat) (tg : string),
        (snd <$> sixteen_loads) !! i = Some tg ->
        FindTextureSlot tg s = Some (Z.of_nat i, s)) /\
    (forall tg : string,
        tg ∉ (snd <$> sixteen_loads) -> FindTextureSlot tg s = Some (-1, s)).
Proof.
  apply (FindTextureSlot_after_registrations decoder driver sixteen_loads
           (Some []) [] []).
  - vm_compute. lia.
  - exact sixteen_loads_decode.
  - by_evaluation.
Defined.

(** C6, as stated, fails for seventeen registrations: the files decode,
    the tags are pairwise distinct, and there is no state after the loads
    in which the last tag could be looked up. *)
Lemma seventeen_registrations_no_lookup :
  length seventeen_loads = 17%nat /\
  NoDup (snd <$> seventeen_loads) /\
  Forall (fun l => decodes_rgb_or_rgba decoder (fst l)) seventeen_loads /\
  ~ exists (results : list bool) (s : SceneManager R),
      load_textures decoder driver seventeen_loads fresh = Some (results, s) /\
      FindTextureSlot "lamp" s = Some (16, s).
Proof.
  split_and!.
  - reflexivity.
  - exact seventeen_tags_distinct.
  - apply Forall_app. split; [exact sixteen_loads_decode|].
    apply Forall_cons. split; [|apply Forall_nil; exact I].
    eexists. split; [reflexivity | left; reflexivity].
  - intros (results & s & Hrun & _).
    assert (Hnone : load_textures decoder driver seventeen_loads fresh = None)
      by (vm_compute; reflexivity).
    rewrite Hnone in Hrun. discriminate Hrun.
Qed.

Lemma SetShaderTexture_unknown_tag_witness :
  ("marble"%string ∉ registered_tags prepared) /\
  SetShaderTexture "marble" prepared
  = Some (tt, shader_received [setIntValue "bUseTexture" 1;
                               setSampler2DValue "objectTexture" (-1)]
                              prepared).
Proof.
  assert (Habsent : "marble"%string ∉ registered_tags prepared).
  { rewrite prepared_tags. by_evaluation. }
  split; [exact Habsent|].
  apply (SetShaderTexture_unknown_tag "marble" prepared).
  - apply prepared_ready.
  - exact Habsent.
Defined.

(** ** Transforms and rendering *)

Lemma SetTransformations_identity_witness :
  SetTransformations (glm.Vec3 (lit 1) (lit 1) (lit 1)) (lit 0) (lit 0) (lit 0)
                     (glm.Vec3 (lit 0) (lit 0) (lit 0)) fresh
  = Some (tt, shader_received [setMat4Value "model" Spec.identity_matrix] fresh).
Proof.
  apply (@SetTransformations_identity R R_Scalar R_UnitArith fresh).
Defined.

Lemma RenderScene_preserves_collections_witness :
  exists s',
    RenderScene garbage prepared = Some (tt, s') /\
    same_collections prepared s'.
Proof.
  destruct (RenderScene_returns garbage prepared prepared_ready)
    as (s' & Hrun & _).
  exists s'. split; [exact Hrun|].
  exact (RenderScene_preserves_collections garbage prepared s' tt Hrun).
Defined.

End Concrete.


(* ===================================================================== *)
(** * Behaviour of the methods *)
(* ===================================================================== *)

Section Behaviour.
Context {T : Type} `{Scalar T}.
Variable stbi_load : bool -> string -> option stbi_image.
Variable gl_fresh_name : list gl_call -> Z.
Variable indeterminate : Scene.OBJECT_MATERIAL T.

Abbreviation CreateGLTexture := (Scene.CreateGLTexture stbi_load gl_fresh_name).
Abbreviation load_textures := (Scene.load_textures stbi_load gl_fresh_name).
Abbreviation load_ok := (Scene.load_ok stbi_load).
Abbreviation decodes := (Scene.decodes stbi_load).
Abbreviation loaded_tags := (Scene.loaded_tags stbi_load).
Abbreviation SceneManager := (Scene.SceneManager T).
Abbreviation OBJECT_MATERIAL := (Scene.OBJECT_MATERIAL T).
Abbreviation shader_call := (Scene.shader_call T).
Abbreviation M := (Scene.M T).

(** ** [CreateGLTexture] in closed form *)
Lemma CreateGLTexture_run (filename tg : string) (s : SceneManager) :
  CreateGLTexture filename tg s =
  match stbi_load true filename with
  | None => Some (false, set_console (console s ++ [CouldNotLoad filename]) s)
  | Some img =>
      let name := gl_fresh_name (gl_context s) in
      let setup :=
        [glGenTextures 1 name; glBindTexture GL_TEXTURE_2D name;
         glTexParameteri GL_TEXTURE_2D GL_TEXTURE_WRAP_S GL_REPEAT;
         glTexParameteri GL_TEXTURE_2D GL_TEXTURE_WRAP_T GL_REPEAT;
         glTexParameteri GL_TEXTURE_2D GL_TEXTURE_MIN_FILTER GL_LINEAR;
         glTexParameteri GL_TEXTURE_2D GL_TEXTURE_MAG_FILTER GL_LINEAR] in
      let line := LoadedImage filename (width img) (height img)
                              (colorChannels img) in
      if (colorChannels img =? 3) || (colorChannels img =? 4) then
        if in_texture_array (m_loadedTextures s) then
          Some (true,
                {| m_pShaderManager := m_pShaderManager s;
                   m_basicMeshes := m_basicMeshes s;
                   m_loadedTextures := m_loadedTextures s + 1;
                   m_textureIDs :=
                     alter (fun e => with_tag tg (with_ID name e))
                           (Z.to_nat (m_loadedTextures s)) (m_textureIDs s);
                   m_objectMaterials := m_objectMaterials s;
                   gl_context :=
                     gl_context s ++ setup
                       ++ [texture_upload img; glGenerateMipmap GL_TEXTURE_2D;
                           glBindTexture GL_TEXTURE_2D 0];
                   console := console s ++ [line] |})
        else None
      else
        Some (false,
              {| m_pShaderManager := m_pShaderManager s;
                 m_basicMeshes := m_basicMeshes s;
                 m_loadedTextures := m_loadedTextures s;
                 m_textureIDs := m_textureIDs s;
                 m_objectMaterials := m_objectMaterials s;
                 gl_context := gl_context s ++ setup;
                 console :=
                   console s ++ [line; UnsupportedChannels (colorChannels img)] |})
  end.
Proof.
  unfold Scene.CreateGLTexture.
  destruct (stbi_load true filename) as [img|]; [|reflexivity].
  unfold texture_upload.
  destruct (colorChannels img =? 3) eqn:H3;
    [|destruct (colorChannels img =? 4) eqn:H4]; simpl.
  all: unfold bind, cout, gl, gen_texture, modify, gets, write_texture, ret; simpl.
  1,2: destruct (in_texture_array (m_loadedTextures s)) eqn:Hin; simpl;
    rewrite ?Hin; simpl; [|reflexivity].
  1,2: rewrite list_alter_alter_eq; repeat (rewrite <- app_assoc; simpl);
    reflexivity.
  repeat (rewrite <- app_assoc; simpl). reflexivity.
Qed.

Lemma load_ok_channels (filename : string) :
  load_ok filename = true <->
  exists img, stbi_load true filename = Some img /\
              (colorChannels img = 3 \/ colorChannels img = 4).
Proof.
  unfold Scene.load_ok. destruct (stbi_load true filename) as [img|].
  - rewrite orb_true_iff, !Z.eqb_eq. split.
    + intros Hc. exists img. split; [reflexivity | exact Hc].
    + intros (img' & [= <-] & Hc). exact Hc.
  - split; [discriminate | intros (img & Himg & _); discriminate].
Qed.

Lemma in_texture_array_spec (i : Z) :
  in_texture_array i = true <-> 0 <= i < TEXTURE_CAPACITY.
Proof.
  unfold in_texture_array. rewrite andb_true_iff, Z.leb_le, Z.ltb_lt.
  reflexivity.
Qed.

Lemma take_alter_last (arr : list TEXTURE_INFO) (n : nat) (f : TEXTURE_INFO -> TEXTURE_INFO)
    (e : TEXTURE_INFO) :
  arr !! n = Some e ->
  take (S n) (alter f n arr) = take n arr ++ [f e].
Proof.
  intros He. rewrite (take_S_r _ _ (f e)).
  - rewrite take_alter_ge by lia. reflexivity.
  - rewrite list_lookup_alter_eq, He. reflexivity.
Qed.

Lemma CreateGLTexture_effect (filename tg : string) (s s' : SceneManager)
    (b : bool) :
  registry_ok s ->
  CreateGLTexture filename tg s = Some (b, s') ->
  b = load_ok filename /\
  registry_ok s' /\
  m_loadedTextures s' = m_loadedTextures s + (if b then 1 else 0) /\
  registered s' =
    registered s
      ++ (if b then [{| tag := tg; ID := gl_fresh_name (gl_context s) |}]
          else []) /\
  drop (Z.to_nat (m_loadedTextures s')) (m_textureIDs s')
    = drop (Z.to_nat (m_loadedTextures s')) (m_textureIDs s) /\
  m_objectMaterials s' = m_objectMaterials s /\
  m_pShaderManager s' = m_pShaderManager s /\
  m_basicMeshes s' = m_basicMeshes s.
Proof.
  intros Hok Hrun. pose proof Hok as [Hlen [Hlo Hhi]].
  unfold TEXTURE_CAPACITY in Hhi.
  rewrite CreateGLTexture_run in Hrun. unfold Scene.load_ok.
  destruct (stbi_load true filename) as [img|].
  - cbv zeta in Hrun.
    destruct ((colorChannels img =? 3) || (colorChannels img =? 4)).
    + destruct (in_texture_array (m_loadedTextures s)) eqn:Hin; [|discriminate].
      apply in_texture_array_spec in Hin. unfold TEXTURE_CAPACITY in Hin.
      injection Hrun as <- <-.
      destruct (lookup_lt_is_Some_2 (m_textureIDs s)
                  (Z.to_nat (m_loadedTextures s))) as [e He]; [lia|].
      unfold registered, registry_ok, TEXTURE_CAPACITY. simpl.
      replace (Z.to_nat (m_loadedTextures s + 1))
        with (S (Z.to_nat (m_loadedTextures s))) by lia.
      rewrite (take_alter_last _ _ _ e He), length_alter.
      rewrite drop_alter. case_decide; [lia|].
      split_and!; try reflexivity; try lia; exact Hlen.
    + injection Hrun as <- <-. unfold registered. simpl.
      rewrite app_nil_r, Z.add_0_r. split_and!; try reflexivity. exact Hok.
  - injection Hrun as <- <-. unfold registered. simpl.
    rewrite app_nil_r, Z.add_0_r. split_and!; try reflexivity. exact Hok.
Qed.

(** X1. Whenever [CreateGLTexture] returns on a well-formed registry, its
    result says whether the file decoded to an RGB or RGBA image; in that
    case exactly one entry (the tag, with the name the driver generated) is
    appended after the registered ones, otherwise the registry is left as
    it was.  Entries above the count, the materials, the shader manager and
    the meshes are never touched. *)
Theorem CreateGLTexture_result (filename tg : string) (s s' : SceneManager)
    (b : bool) :
  registry_ok s ->
  CreateGLTexture filename tg s = Some (b, s') ->
  b = load_ok filename /\
  registry_ok s' /\
  m_loadedTextures s' = m_loadedTextures s + (if b then 1 else 0) /\
  registered s' =
    registered s
      ++ (if b then [{| tag := tg; ID := gl_fresh_name (gl_context s) |}]
          else []) /\
  drop (Z.to_nat (m_loadedTextures s')) (m_textureIDs s')
    = drop (Z.to_nat (m_loadedTextures s')) (m_textureIDs s) /\
  m_objectMaterials s' = m_objectMaterials s /\
  m_pShaderManager s' = m_pShaderManager s /\
  m_basicMeshes s' = m_basicMeshes s.
Proof. intros; eapply CreateGLTexture_effect; eassumption. Qed.

Lemma CreateGLTexture_undefined (filename tg : string) (s : SceneManager) :
  registry_ok s ->
  (CreateGLTexture filename tg s = None <->
   m_loadedTextures s = TEXTURE_CAPACITY /\ load_ok filename = true).
Proof.
  intros [Hlen [Hlo Hhi]]. rewrite CreateGLTexture_run. unfold Scene.load_ok.
  destruct (stbi_load true filename) as [img|]; cbv zeta.
  - destruct ((colorChannels img =? 3) || (colorChannels img =? 4)).
    + destruct (in_texture_array (m_loadedTextures s)) eqn:Hin.
      * apply in_texture_array_spec in Hin.
        split; [discriminate | intros [Hfull _]; lia].
      * assert (~ 0 <= m_loadedTextures s < TEXTURE_CAPACITY)
          by (rewrite <- in_texture_array_spec, Hin; discriminate).
        split; [intros _; split; [lia | reflexivity] | reflexivity].
    + split; [discriminate | intros [_ Hf]; discriminate].
  - split; [discriminate | intros [_ Hf]; discriminate].
Qed.

(** X3. On a well-formed registry the only call of [CreateGLTexture]
    without a defined result is the load of a decodable RGB or RGBA image
    into a full registry. *)
Theorem CreateGLTexture_undefined_iff (filename tg : string) (s : SceneManager) :
  registry_ok s ->
  (CreateGLTexture filename tg s = None <->
   m_loadedTextures s = TEXTURE_CAPACITY /\ load_ok filename = true).
Proof. intros; apply CreateGLTexture_undefined; assumption. Qed.

(** X2. [CreateGLTexture] asks the driver for a texture name, and binds
    it, exactly when the file decodes, and makes no GL call at all
    otherwise.  Only a successful load ends by unbinding the texture; a load
    rejected for its channel count never generates mipmaps and leaves the
    generated texture bound. *)
Theorem CreateGLTexture_gl_calls (filename tg : string) (s s' : SceneManager)
    (b : bool) :
  CreateGLTexture filename tg s = Some (b, s') ->
  exists calls,
    gl_context s' = gl_context s ++ calls /\
    (decodes filename = false -> calls = []) /\
    (decodes filename = true ->
       generated calls = 1%nat /\
       head calls = Some (glGenTextures 1 (gl_fresh_name (gl_context s))) /\
       glBindTexture GL_TEXTURE_2D (gl_fresh_name (gl_context s)) ∈ calls) /\
    (b = true -> last calls = Some (glBindTexture GL_TEXTURE_2D 0)) /\
    (b = false -> glGenerateMipmap GL_TEXTURE_2D ∉ calls).
Proof.
  intros Hrun. rewrite CreateGLTexture_run in Hrun. unfold Scene.decodes.
  destruct (stbi_load true filename) as [img|].
  - cbv zeta in Hrun.
    destruct ((colorChannels img =? 3) || (colorChannels img =? 4)).
    + destruct (in_texture_array (m_loadedTextures s)); [|discriminate].
      injection Hrun as <- <-. eexists. simpl.
      split; [reflexivity|]. split; [discriminate|].
      split; [|split; [reflexivity | discriminate]].
      intros _. unfold texture_upload.
      split; [destruct (colorChannels img =? 3); reflexivity|].
      split; [reflexivity|].
      apply (list_elem_of_lookup_2 _ 1%nat). reflexivity.
    + injection Hrun as <- <-. eexists. simpl.
      split; [reflexivity|]. split; [discriminate|].
      split; [|split; [discriminate|]].
      * intros _. split; [reflexivity|]. split; [reflexivity|].
        apply (list_elem_of_lookup_2 _ 1%nat). reflexivity.
      * intros _ Hin. repeat (apply elem_of_cons in Hin as [Hin|Hin];
                              [discriminate|]).
        inversion Hin.
  - injection Hrun as <- <-. exists []. simpl. rewrite app_nil_r.
    split; [reflexivity|]. split; [reflexivity|].
    split; [discriminate|]. split; [discriminate|].
    intros _ Hin. inversion Hin.
Qed.

(** ** Lookups *)
Lemma first_index_Some (tg : string) (tags : list string) (i : nat) :
  first_index tg tags = Some i <->
  tags !! i = Some tg /\ forall j, (j < i)%nat -> tags !! j <> Some tg.
Proof.
  unfold first_index. split.
  - destruct (list_find _ tags) as [[i' x]|] eqn:Hfind; [|discriminate].
    intros [= <-]. apply list_find_Some in Hfind as (Hi & -> & Hbefore).
    split; [exact Hi|]. intros j Hj Hjt. exact (Hbefore j tg Hjt Hj eq_refl).
  - intros [Hi Hbefore].
    assert (Hfind : list_find (fun t => t = tg) tags = Some (i, tg)).
    { apply list_find_Some. split; [exact Hi|]. split; [reflexivity|].
      intros j y Hj Hlt ->. exact (Hbefore j Hlt Hj). }
    rewrite Hfind. reflexivity.
Qed.

Lemma first_index_None (tg : string) (tags : list string) :
  first_index tg tags = None <-> tg ∉ tags.
Proof.
  split.
  - unfold first_index. destruct (list_find _ tags) as [[i x]|] eqn:Hfind;
      [discriminate|]. intros _ Hin.
    apply list_find_None in Hfind. rewrite Forall_forall in Hfind.
    exact (Hfind tg Hin eq_refl).
  - apply first_index_absent.
Qed.

Lemma first_index_app (tg : string) (l1 l2 : list string) :
  first_index tg (l1 ++ l2) =
  match first_index tg l1 with
  | Some i => Some i
  | None => (fun n => (n + length l1)%nat) <$> first_index tg l2
  end.
Proof.
  unfold first_index.
  destruct (list_find (fun t => t = tg) l1) as [[i x]|] eqn:H1; simpl.
  - rewrite (list_find_app_l _ _ _ _ _ H1). reflexivity.
  - rewrite (list_find_app_r _ _ _ H1).
    destruct (list_find _ l2) as [[i x]|]; reflexivity.
Qed.

Lemma first_texture_app (tg : string) (l1 l2 : list TEXTURE_INFO) :
  first_texture tg (l1 ++ l2) =
  match first_texture tg l1 with
  | Some e => Some e
  | None => first_texture tg l2
  end.
Proof.
  unfold first_texture.
  destruct (list_find (fun e => tag e = tg) l1) as [[i x]|] eqn:H1; simpl.
  - rewrite (list_find_app_l _ _ _ _ _ H1). reflexivity.
  - rewrite (list_find_app_r _ _ _ H1).
    destruct (list_find _ l2) as [[i x]|]; reflexivity.
Qed.

Lemma first_texture_index (tg : string) (l : list TEXTURE_INFO) :
  match first_index tg (tag <$> l) with
  | Some i => exists e, l !! i = Some e /\ tag e = tg /\
                        first_texture tg l = Some e
  | None => first_texture tg l = None
  end.
Proof.
  induction l as [|e l IH].
  - reflexivity.
  - rewrite fmap_cons, first_index_cons, first_texture_cons.
    case_bool_decide as He.
    + exists e. split; [reflexivity|]. split; [exact He | reflexivity].
    + destruct (first_index tg (tag <$> l)) as [i|]; simpl; exact IH.
Qed.

(** X4. On a well-formed registry [FindTextureSlot] returns without
    changing the state: either [-1], and then no registered entry carries
    the tag, or the index, below the loaded count, of the first registered
    entry that carries it. *)
Theorem FindTextureSlot_first_match (tg : string) (s : SceneManager) :
  registry_ok s ->
  exists slot,
    FindTextureSlot tg s = Some (slot, s) /\
    ((slot = -1 /\ tg ∉ registered_tags s) \/
     (0 <= slot < m_loadedTextures s /\
      registered_tags s !! Z.to_nat slot = Some tg /\
      forall j, (j < Z.to_nat slot)%nat -> registered_tags s !! j <> Some tg)).
Proof.
  intros Hok. rewrite FindTextureSlot_spec by exact Hok.
  destruct (first_index tg (registered_tags s)) as [i|] eqn:Hi.
  - exists (Z.of_nat i). split; [reflexivity|]. right.
    apply first_index_Some in Hi as [Hi Hbefore].
    rewrite Nat2Z.id. split; [|split; [exact Hi | exact Hbefore]].
    apply lookup_lt_Some in Hi.
    unfold registered_tags, registered in Hi.
    rewrite length_fmap, length_take in Hi. lia.
  - exists (-1). split; [reflexivity|]. left.
    split; [reflexivity | apply first_index_None, Hi].
Qed.



(** X7. A load never changes what a lookup returns for another tag, nor for
    a tag that was already registered: a second registration under the same
    tag is shadowed by the first. *)
Theorem CreateGLTexture_keeps_lookups (filename tg tg' : string)
    (s s' : SceneManager) (b : bool) :
  registry_ok s ->
  CreateGLTexture filename tg s = Some (b, s') ->
  tg' <> tg \/ tg' ∈ registered_tags s ->
  fst <$> FindTextureSlot tg' s' = fst <$> FindTextureSlot tg' s /\
  fst <$> FindTextureID tg' s' = fst <$> FindTextureID tg' s.
Proof.
  intros Hok Hrun Hother.
  destruct (CreateGLTexture_effect _ _ _ _ _ Hok Hrun)
    as (_ & Hok' & _ & Hreg & _).
  rewrite !FindTextureSlot_spec, !FindTextureID_spec by assumption.
  unfold registered_tags. rewrite Hreg, fmap_app, first_index_app, first_texture_app.
  pose proof (first_texture_index tg' (registered s)) as Hrel.
  fold (registered_tags s) in Hrel |- *.
  destruct (first_index tg' (registered_tags s)) as [i|] eqn:Hi.
  - destruct Hrel as (e & _ & _ & ->). split; reflexivity.
  - rewrite Hrel. apply first_index_None in Hi.
    destruct Hother as [Hne|Hin]; [|contradiction].
    destruct b; simpl; [|split; reflexivity].
    rewrite first_index_cons, first_texture_cons. simpl.
    rewrite !bool_decide_eq_false_2 by congruence. split; reflexivity.
Qed.

(** ** Binding and regenerating the registered textures *)
Lemma set_gl_context_twice (c1 c2 : list gl_call) (s : SceneManager) :
  set_gl_context c2 (set_gl_context c1 s) = set_gl_context c2 s.
Proof. reflexivity. Qed.

Lemma BindGLTextures_loop (arr : list TEXTURE_INFO) (k : nat) :
  length arr = 16%nat ->
  forall (i : Z) (s : SceneManager),
    m_textureIDs s = arr -> 0 <= i -> i + Z.of_nat k <= 16 ->
    for_from i k (fun i =>
      bind (gl (glActiveTexture i)) (fun _ =>
      bind (read_texture i) (fun e =>
      gl (glBindTexture GL_TEXTURE_2D (ID e))))) s
    = Some (tt, set_gl_context
                  (gl_context s
                     ++ bind_calls i (take k (drop (Z.to_nat i) arr))) s).
Proof.
  intros Hlen. induction k as [|k IH]; intros i s Harr Hlo Hhi.
  - simpl. rewrite app_nil_r. destruct s; reflexivity.
  - destruct (lookup_lt_is_Some_2 arr (Z.to_nat i)) as [e He]; [lia|].
    rewrite (drop_S _ e _ He). simpl.
    unfold bind at 1. unfold gl at 1, modify. unfold bind at 1.
    unfold bind at 1. unfold read_texture, array_read. simpl.
    replace (in_texture_array i) with true
      by (symmetry; unfold in_texture_array, TEXTURE_CAPACITY;
          apply andb_true_intro; split; lia).
    rewrite Harr, He. unfold gl at 1, modify.
    rewrite IH by (simpl; auto; lia). simpl.
    replace (Z.to_nat (i + 1)) with (S (Z.to_nat i)) by lia.
    rewrite <- !app_assoc. reflexivity.
Qed.

Lemma bind_calls_lookup (entries : list TEXTURE_INFO) :
  forall (unit : Z) (i : nat) (e : TEXTURE_INFO),
    entries !! i = Some e ->
    bind_calls unit entries !! (2 * i)%nat
      = Some (glActiveTexture (unit + Z.of_nat i)) /\
    bind_calls unit entries !! (2 * i + 1)%nat
      = Some (glBindTexture GL_TEXTURE_2D (ID e)).
Proof.
  induction entries as [|e0 rest IH]; intros unit i e Hi; [discriminate|].
  destruct i as [|i].
  - injection Hi as ->. simpl. rewrite Z.add_0_r. split; reflexivity.
  - simpl in Hi. destruct (IH (unit + 1) i e Hi) as [Ha Hb].
    replace (2 * S i + 1)%nat with (S (S (2 * i + 1))) by lia.
    replace (2 * S i)%nat with (S (S (2 * i))) by lia.
    replace (unit + Z.of_nat (S i)) with (unit + 1 + Z.of_nat i) by lia.
    split; [exact Ha | exact Hb].
Qed.

Lemma BindGLTextures_run (s : SceneManager) :
  registry_ok s ->
  exists calls,
    BindGLTextures s = Some (tt, set_gl_context (gl_context s ++ calls) s) /\
    length calls = (2 * Z.to_nat (m_loadedTextures s))%nat /\
    forall (i : nat) (e : TEXTURE_INFO),
      registered s !! i = Some e ->
      calls !! (2 * i)%nat = Some (glActiveTexture (Z.of_nat i)) /\
      calls !! (2 * i + 1)%nat = Some (glBindTexture GL_TEXTURE_2D (ID e)).
Proof.
  intros [Hlen [Hlo Hhi]]. unfold TEXTURE_CAPACITY in Hhi.
  exists (bind_calls 0 (registered s)). split; [|split].
  - unfold BindGLTextures, for_upto. unfold bind at 1, gets.
    rewrite (BindGLTextures_loop (m_textureIDs s)) by (auto; lia).
    simpl. rewrite drop_0. reflexivity.
  - assert (Hcalls : forall es u, length (bind_calls u es) = (2 * length es)%nat).
    { induction es as [|e es IH]; intros u; [reflexivity|].
      simpl. rewrite IH. lia. }
    rewrite Hcalls. unfold registered. rewrite length_take. lia.
  - intros i e Hi. exact (bind_calls_lookup _ 0 i e Hi).
Qed.

(** X8. [BindGLTextures] changes nothing but the GL context, to which it
    issues two calls for each registered texture, in order: it activates
    texture unit [i] and binds to it the GL name stored in entry [i]. *)
Theorem BindGLTextures_units (s : SceneManager) :
  registry_ok s ->
  exists calls,
    BindGLTextures s = Some (tt, set_gl_context (gl_context s ++ calls) s) /\
    length calls = (2 * Z.to_nat (m_loadedTextures s))%nat /\
    forall (i : nat) (e : TEXTURE_INFO),
      registered s !! i = Some e ->
      calls !! (2 * i)%nat = Some (glActiveTexture (Z.of_nat i)) /\
      calls !! (2 * i + 1)%nat = Some (glBindTexture GL_TEXTURE_2D (ID e)).
Proof. intros; apply BindGLTextures_run; assumption. Qed.

Lemma DestroyGLTextures_loop (k : nat) :
  forall (i : Z) (s : SceneManager),
    length (m_textureIDs s) = 16%nat -> 0 <= i -> i + Z.of_nat k <= 16 ->
    exists s',
      for_from i k (fun i =>
        bind (gen_texture gl_fresh_name) (fun name =>
        write_texture i (with_ID name))) s = Some (tt, s') /\
      m_textureIDs s' =
        take (Z.to_nat i) (m_textureIDs s)
          ++ zip_with with_ID (fresh_names gl_fresh_name (gl_context s) k)
                      (take k (drop (Z.to_nat i) (m_textureIDs s)))
          ++ drop (Z.to_nat i + k) (m_textureIDs s) /\
      gl_context s' =
        gl_context s
          ++ (glGenTextures 1 <$> fresh_names gl_fresh_name (gl_context s) k) /\
      m_loadedTextures s' = m_loadedTextures s /\
      m_objectMaterials s' = m_objectMaterials s /\
      m_pShaderManager s' = m_pShaderManager s /\
      m_basicMeshes s' = m_basicMeshes s /\
      console s' = console s.
Proof.
  induction k as [|k IH]; intros i s Hlen Hlo Hhi.
  - exists s. simpl. rewrite Nat.add_0_r, take_drop, app_nil_r.
    split_and!; reflexivity.
  - destruct (lookup_lt_is_Some_2 (m_textureIDs s) (Z.to_nat i)) as [e He];
      [lia|].
    simpl. unfold bind at 1. unfold bind at 1. unfold gen_texture at 1.
    unfold write_texture at 1.
    replace (in_texture_array i) with true
      by (symmetry; unfold in_texture_array, TEXTURE_CAPACITY;
          apply andb_true_intro; split; lia).
    simpl.
    set (name := gl_fresh_name (gl_context s)).
    set (s1 := set_textureIDs _ _).
    destruct (IH (i + 1) s1) as (s' & Hrun & Harr & Hgl & Hrest);
      [unfold s1; simpl; rewrite length_alter; exact Hlen | lia | lia |].
    exists s'. split; [exact Hrun|]. split; [|split; [|exact Hrest]].
    + rewrite Harr. unfold s1. simpl.
      replace (Z.to_nat (i + 1)) with (S (Z.to_nat i)) by lia.
      rewrite (take_alter_last _ _ _ e He).
      rewrite !drop_alter. repeat case_decide; try lia.
      rewrite (drop_S _ e _ He). simpl.
      rewrite <- app_assoc. simpl.
      replace (Z.to_nat i + S k)%nat with (S (Z.to_nat i + k)) by lia.
      reflexivity.
    + rewrite Hgl. unfold s1. simpl. rewrite <- app_assoc. reflexivity.
Qed.

Lemma length_fresh_names (context : list gl_call) (n : nat) :
  length (fresh_names gl_fresh_name context n) = n.
Proof.
  revert context. induction n as [|n IH]; intros context; [reflexivity|].
  simpl. rewrite IH. reflexivity.
Qed.

Lemma tags_with_ID (names : list Z) (entries : list TEXTURE_INFO) :
  length names = length entries ->
  tag <$> zip_with with_ID names entries = tag <$> entries.
Proof.
  revert names. induction entries as [|e entries IH]; intros [|n names] Hlen;
    try discriminate; [reflexivity|].
  simpl. f_equal. apply IH. simpl in Hlen. lia.
Qed.

(** X9. [DestroyGLTextures] releases nothing: on a well-formed registry it
    keeps the loaded count and every tag, asks the driver for one new
    texture name per registered entry and stores that name over the entry's
    ID; its GL calls are these name requests only. *)
Theorem DestroyGLTextures_regenerates (s : SceneManager) :
  registry_ok s ->
  exists s',
    DestroyGLTextures gl_fresh_name s = Some (tt, s') /\
    registry_ok s' /\
    m_loadedTextures s' = m_loadedTextures s /\
    tag <$> m_textureIDs s' = tag <$> m_textureIDs s /\
    registered s' =
      zip_with with_ID
        (fresh_names gl_fresh_name (gl_context s)
                     (Z.to_nat (m_loadedTextures s)))
        (registered s) /\
    gl_context s' =
      gl_context s
        ++ (glGenTextures 1 <$>
              fresh_names gl_fresh_name (gl_context s)
                          (Z.to_nat (m_loadedTextures s))).
Proof.
  intros [Hlen [Hlo Hhi]]. unfold TEXTURE_CAPACITY in Hhi.
  destruct (DestroyGLTextures_loop (Z.to_nat (m_loadedTextures s)) 0 s)
    as (s' & Hrun & Harr & Hgl & Hcount & _); [exact Hlen | lia | lia |].
  simpl in Harr. rewrite drop_0 in Harr.
  set (n := Z.to_nat (m_loadedTextures s)) in *.
  set (names := fresh_names gl_fresh_name (gl_context s) n) in *.
  assert (Hsame : length names = length (take n (m_textureIDs s))).
  { unfold names. rewrite length_fresh_names, length_take. lia. }
  assert (Htags : tag <$> m_textureIDs s' = tag <$> m_textureIDs s).
  { rewrite Harr, fmap_app, tags_with_ID by exact Hsame.
    rewrite <- fmap_app, take_drop. reflexivity. }
  exists s'. split; [exact Hrun|]. split_and!.
  - split; [|rewrite Hcount; unfold TEXTURE_CAPACITY; lia].
    rewrite <- (length_fmap tag), Htags, length_fmap. exact Hlen.
  - exact Hcount.
  - exact Htags.
  - unfold registered. rewrite Hcount. fold n. rewrite Harr.
    rewrite take_app_length'; [reflexivity|].
    rewrite length_zip_with, length_take. unfold names.
    rewrite length_fresh_names. lia.
  - exact Hgl.
Qed.


Lemma SetShaderMaterial_run (ind : OBJECT_MATERIAL) (tg : string)
    (s : SceneManager) :
  SetShaderMaterial ind tg s =
  match m_objectMaterials s with
  | [] => Some (tt, s)
  | _ :: _ =>
      let source := default ind
                      (first_material tg (m_objectMaterials s)) in
      match m_pShaderManager s with
      | Some _ =>
          Some (tt, shader_received
                      [setVec3Value "material.diffuseColor" (diffuseColor source);
                       setVec3Value "material.specularColor" (specularColor source);
                       setFloatValue "material.shininess" (shininess source)] s)
      | None => None
      end
  end.
Proof.
  unfold SetShaderMaterial. unfold bind at 1, gets.
  destruct (m_objectMaterials s) as [|m0 mats] eqn:Hmats; [reflexivity|].
  replace (0 <? Z.of_nat (length (m0 :: mats))) with true
    by (symmetry; apply Z.ltb_lt; simpl; lia).
  unfold bind at 1. rewrite FindMaterial_spec, Hmats.
  replace (Z.of_nat (length (m0 :: mats)) =? 0) with false
    by (symmetry; apply Z.eqb_neq; simpl; lia).
  cbn [negb fst snd Bool.eqb]. cbv zeta.
  assert (Hfields :
    let m := match first_material tg (m0 :: mats) with
             | Some e => copy_found e ind
             | None => ind
             end in
    let source := default ind (first_material tg (m0 :: mats)) in
    diffuseColor m = diffuseColor source /\
    specularColor m = specularColor source /\
    shininess m = shininess source).
  { destruct (first_material tg (m0 :: mats)); repeat split. }
  destruct Hfields as (-> & -> & ->).
  destruct (m_pShaderManager s) as [log|] eqn:Hp.
  - unfold bind at 1. rewrite (shader_call_received _ s log Hp).
    unfold bind at 1.
    rewrite (shader_call_received _ _ (log ++ [_]))
      by (unfold shader_received; simpl; rewrite Hp; reflexivity).
    rewrite (shader_call_received _ _ ((log ++ [_]) ++ [_]))
      by (unfold shader_received; simpl; rewrite Hp; reflexivity).
    rewrite !shader_received_app. reflexivity.
  - unfold bind at 1, shader at 1. rewrite Hp. reflexivity.
Qed.

(** X11. With a shader manager and a non-empty material list,
    [SetShaderMaterial] sends diffuse colour, specular colour and shininess
    of the first material carrying the tag, and those of its unassigned
    local when no material carries it. *)
Theorem SetShaderMaterial_sends (tg : string) (s : SceneManager)
    (log : list shader_call) :
  m_pShaderManager s = Some log ->
  m_objectMaterials s <> [] ->
  exists source,
    source = default indeterminate (first_material tg (m_objectMaterials s)) /\
    SetShaderMaterial indeterminate tg s
    = Some (tt, shader_received
                  [setVec3Value "material.diffuseColor" (diffuseColor source);
                   setVec3Value "material.specularColor" (specularColor source);
                   setFloatValue "material.shininess" (shininess source)] s).
Proof.
  intros Hp Hne. eexists. split; [reflexivity|].
  rewrite SetShaderMaterial_run, Hp.
  destruct (m_objectMaterials s); [contradiction | reflexivity].
Qed.

Lemma SetupSceneLights_null (s : SceneManager) :
  m_pShaderManager s = None -> SetupSceneLights s = None.
Proof.
  intros Hnull. unfold SetupSceneLights. unfold bind at 1, shader at 1.
  rewrite Hnull. reflexivity.
Qed.

(** X10. Without a shader manager, [SetTransformations], [SetShaderColor],
    [SetShaderTexture] and [SetTextureUVScale] return and leave the state
    untouched; [SetShaderMaterial] does so only for an empty material list
    and otherwise calls through the null pointer, as [SetupSceneLights]
    always does. *)
Theorem null_shader_manager (s : SceneManager) :
  m_pShaderManager s = None ->
  (forall scaleXYZ rx ry rz positionXYZ,
      SetTransformations scaleXYZ rx ry rz positionXYZ s = Some (tt, s)) /\
  (forall r g b a, SetShaderColor r g b a s = Some (tt, s)) /\
  (forall tg, SetShaderTexture tg s = Some (tt, s)) /\
  (forall u v, SetTextureUVScale u v s = Some (tt, s)) /\
  (forall tg, SetShaderMaterial indeterminate tg s
              = if decide (m_objectMaterials s = []) then Some (tt, s)
                else None) /\
  SetupSceneLights s = None.
Proof.
  intros Hnull. split_and!; intros;
    try (apply if_shader_null; exact Hnull).
  - rewrite SetShaderMaterial_run, Hnull.
    destruct (m_objectMaterials s); reflexivity.
  - apply SetupSceneLights_null, Hnull.
Qed.

(** X12. When several materials carry the tag, [FindMaterial] copies the
    diffuse colour, specular colour and shininess of the first of them, and
    keeps the caller's ambient fields. *)
Theorem FindMaterial_first_match (tg : string) (material e : OBJECT_MATERIAL)
    (before after : list OBJECT_MATERIAL) (s : SceneManager) :
  m_objectMaterials s = before ++ e :: after ->
  Forall (fun m => material_tag m <> tg) before ->
  material_tag e = tg ->
  exists material',
    FindMaterial tg material s = Some ((true, material'), s) /\
    diffuseColor material' = diffuseColor e /\
    specularColor material' = specularColor e /\
    shininess material' = shininess e /\
    ambientColor material' = ambientColor material /\
    ambientStrength material' = ambientStrength material.
Proof.
  intros Hmats Hbefore He. rewrite FindMaterial_spec, Hmats.
  assert (Hfirst : first_material tg (before ++ e :: after) = Some e).
  { unfold first_material.
    assert (Hfind : list_find (fun m => material_tag m = tg)
                      (before ++ e :: after) = Some (length before, e)).
    { apply list_find_Some. split; [|split; [exact He|]].
      - rewrite lookup_app_r, Nat.sub_diag by lia. reflexivity.
      - intros j y Hj Hlt Hy. rewrite lookup_app_l in Hj by exact Hlt.
        rewrite Forall_forall in Hbefore.
        exact (Hbefore y (list_elem_of_lookup_2 _ _ _ Hj) Hy). }
    rewrite Hfind. reflexivity. }
  rewrite Hfirst. eexists. split.
  - f_equal. f_equal. f_equal.
    destruct before; simpl; reflexivity.
  - repeat split.
Qed.

Lemma SetShaderTexture_run (tg : string) (i : nat) (s : SceneManager) :
  registry_ok s ->
  registered_tags s !! i = Some tg ->
  (forall j, (j < i)%nat -> registered_tags s !! j <> Some tg) ->
  SetShaderTexture tg s
  = Some (tt, shader_received [setIntValue "bUseTexture" 1;
                               setSampler2DValue "objectTexture" (Z.of_nat i)] s).
Proof.
  intros Hok Hi Hbefore. unfold SetShaderTexture.
  assert (Hfirst : first_index tg (registered_tags s) = Some i)
    by (apply first_index_Some; split; assumption).
  destruct (m_pShaderManager s) as [log|] eqn:Hp.
  - rewrite (if_shader_present _ _ log Hp). unfold bind at 1.
    rewrite (shader_call_received _ s log Hp). unfold bind at 1.
    rewrite FindTextureSlot_spec by exact Hok.
    replace (registered_tags (shader_received _ s)) with (registered_tags s)
      by reflexivity.
    rewrite Hfirst.
    rewrite (shader_call_received _ _ (log ++ [setIntValue g_UseTextureName 1]))
      by (unfold shader_received; simpl; rewrite Hp; reflexivity).
    rewrite shader_received_app. reflexivity.
  - rewrite if_shader_null, shader_received_nil by exact Hp. reflexivity.
Qed.

(** X13. For a registered tag, [SetShaderTexture] enables texturing and
    hands the shader, as sampler, the index of the first entry carrying the
    tag. *)
Theorem SetShaderTexture_registered (tg : string) (i : nat) (s : SceneManager) :
  registry_ok s ->
  registered_tags s !! i = Some tg ->
  (forall j, (j < i)%nat -> registered_tags s !! j <> Some tg) ->
  SetShaderTexture tg s
  = Some (tt, shader_received [setIntValue "bUseTexture" 1;
                               setSampler2DValue "objectTexture" (Z.of_nat i)] s).
Proof. intros; apply SetShaderTexture_run; assumption. Qed.

(** ** Rendering *)

(** *** Only the shader and the mesh library hear of it *)
Lemma draws_ret {A} (a : A) : draws [] (ret (T := T) a).
Proof. intros s a' s' [= _ <-]. rewrite app_nil_r. repeat split. Qed.

Lemma draws_bind {A B} (ds1 ds2 : list mesh_call) (m : M A) (f : A -> M B) :
  draws ds1 m -> (forall a, draws ds2 (f a)) -> draws (ds1 ++ ds2) (bind m f).
Proof.
  intros Hm Hf s b s' Hrun. unfold bind in Hrun.
  destruct (m s) as [[a s1]|] eqn:Hms; [|discriminate].
  destruct (Hm _ _ _ Hms) as (Hg1 & Hc1 & Hm1).
  destruct (Hf a _ _ _ Hrun) as (Hg2 & Hc2 & Hm2).
  rewrite Hg2, Hc2, Hm2, Hg1, Hc1, Hm1, app_assoc. repeat split.
Qed.

Lemma draws_nil_bind {A B} (ds : list mesh_call) (m : M A) (f : A -> M B) :
  draws [] m -> (forall a, draws ds (f a)) -> draws ds (bind m f).
Proof. intros Hm Hf. exact (draws_bind [] ds m f Hm Hf). Qed.

Lemma draws_gets {A} (f : SceneManager -> A) : draws [] (gets f).
Proof. intros s a s' [= _ <-]. rewrite app_nil_r. repeat split. Qed.

Lemma draws_lift_read {A} (r : SceneManager -> option A) :
  draws [] (lift_read r).
Proof.
  intros s a s' Hrun. unfold lift_read in Hrun.
  destruct (r s); [|discriminate]. injection Hrun as _ <-.
  rewrite app_nil_r. repeat split.
Qed.

Lemma draws_shader (c : shader_call) : draws [] (shader c).
Proof.
  intros s a s' Hrun. unfold shader in Hrun.
  destruct (m_pShaderManager s); [|discriminate]. injection Hrun as _ <-.
  simpl. rewrite app_nil_r. repeat split.
Qed.

Lemma draws_mesh (c : mesh_call) : draws [c] (mesh (T := T) c).
Proof. intros s a s' [= _ <-]. repeat split. Qed.

Lemma draws_if_shader (m : M unit) : draws [] m -> draws [] (if_shader m).
Proof.
  intros Hm. unfold if_shader. apply draws_nil_bind; [apply draws_gets|].
  intros [log|]; [exact Hm | apply draws_ret].
Qed.

Lemma draws_SetTransformations scaleXYZ rx ry rz positionXYZ :
  draws [] (SetTransformations (T := T) scaleXYZ rx ry rz positionXYZ).
Proof. apply draws_if_shader, draws_shader. Qed.

Lemma draws_SetShaderColor r g b a : draws [] (SetShaderColor (T := T) r g b a).
Proof.
  apply draws_if_shader, draws_nil_bind; [apply draws_shader|].
  intros _. apply draws_shader.
Qed.

Lemma draws_SetShaderTexture tg : draws [] (SetShaderTexture (T := T) tg).
Proof.
  apply draws_if_shader, draws_nil_bind; [apply draws_shader|].
  intros _. apply draws_nil_bind; [apply draws_lift_read|].
  intros slot. apply draws_shader.
Qed.

Lemma draws_SetShaderMaterial tg : draws [] (SetShaderMaterial indeterminate tg).
Proof.
  intros s a s' Hrun. rewrite SetShaderMaterial_run in Hrun.
  destruct (m_objectMaterials s).
  - injection Hrun as _ <-. rewrite app_nil_r. repeat split.
  - cbv zeta in Hrun. destruct (m_pShaderManager s); [|discriminate].
    injection Hrun as _ <-. simpl. rewrite app_nil_r. repeat split.
Qed.

Lemma RenderScene_draws :
  exists ds, draws ds (RenderScene indeterminate) /\
             length ds = 44%nat /\ forallb is_draw ds = true.
Proof.
  eexists. split.
  - unfold RenderScene. cbv zeta.
    repeat first
      [ apply draws_nil_bind;
        [ first [ apply draws_SetTransformations | apply draws_SetShaderColor
                | apply draws_SetShaderTexture | apply draws_SetShaderMaterial ]
        | intros _ ]
      | eapply draws_bind; [apply draws_mesh | intros _] ].
    apply draws_mesh.
  - split; reflexivity.
Qed.

(** X14. Whenever [RenderScene] returns, it has issued exactly 44 calls to
    the mesh library, all of them draws, and has made no GL call and printed
    nothing. *)
Theorem RenderScene_effects (s s' : SceneManager) (u : unit) :
  RenderScene indeterminate s = Some (u, s') ->
  gl_context s' = gl_context s /\
  console s' = console s /\
  exists ds, m_basicMeshes s' = m_basicMeshes s ++ ds /\
             length ds = 44%nat /\ forallb is_draw ds = true.
Proof.
  intros Hrun. destruct RenderScene_draws as (ds & Hds & Hlen & Hall).
  destruct (Hds _ _ _ Hrun) as (Hg & Hc & Hm).
  split; [exact Hg|]. split; [exact Hc|]. exists ds. auto.
Qed.

(** *** The uninitialised local is never read once the materials exist *)
Lemma keeps_of_preserves {A} (P : SceneManager -> Prop) (m : M A) :
  (forall s s', same_collections s s' -> P s -> P s') ->
  preserves_collections m -> keeps P m.
Proof. intros HP Hm s a s' Hs Hrun. exact (HP _ _ (Hm _ _ _ Hrun) Hs). Qed.

Lemma materials_defined_same (s s' : SceneManager) :
  same_collections s s' -> materials_defined s -> materials_defined s'.
Proof. intros (_ & _ & Hm). unfold materials_defined. rewrite Hm. auto. Qed.

Lemma agree_refl {A} (P : SceneManager -> Prop) (m : M A) : agree_on P m m.
Proof. intros s _. reflexivity. Qed.

Lemma agree_bind {A B} (P : SceneManager -> Prop) (m1 m2 : M A)
    (f1 f2 : A -> M B) :
  agree_on P m1 m2 -> keeps P m1 ->
  (forall a, agree_on P (f1 a) (f2 a)) ->
  agree_on P (bind m1 f1) (bind m2 f2).
Proof.
  intros Hm Hk Hf s Hs. unfold bind. rewrite <- (Hm s Hs).
  destruct (m1 s) as [[a s1]|] eqn:Hrun; [|reflexivity].
  apply Hf. exact (Hk _ _ _ Hs Hrun).
Qed.

Lemma agree_SetShaderMaterial (ind1 ind2 : OBJECT_MATERIAL) (tg : string) :
  tg ∈ scene_material_tags ->
  agree_on materials_defined (SetShaderMaterial ind1 tg)
           (SetShaderMaterial ind2 tg).
Proof.
  intros Hin s Hs. rewrite !SetShaderMaterial_run.
  unfold materials_defined in Hs. rewrite Forall_forall in Hs.
  destruct (Hs tg Hin) as [e He]. rewrite He. reflexivity.
Qed.

Ltac scene_tag := apply (bool_decide_unpack _); vm_compute; exact I.

Lemma RenderScene_agrees (ind1 ind2 : OBJECT_MATERIAL)
    (s : SceneManager) :
  materials_defined s ->
  RenderScene ind1 s = RenderScene ind2 s.
Proof.
  revert s.
  change (agree_on materials_defined (RenderScene ind1) (RenderScene ind2)).
  unfold RenderScene. cbv zeta.
  repeat (apply agree_bind;
    [ first [ apply agree_refl | apply agree_SetShaderMaterial; scene_tag ]
    | apply keeps_of_preserves;
      [ exact materials_defined_same
      | first [ apply preserves_SetTransformations
              | apply preserves_SetShaderColor
              | apply preserves_SetShaderTexture
              | apply preserves_SetShaderMaterial
              | apply preserves_mesh ] ]
    | intros _ ]).
  apply agree_refl.
Qed.

(** X15. Once each of the eight material tags the scene uses has an entry,
    [RenderScene] does not depend on what the unassigned local of
    [SetShaderMaterial] holds. *)
Theorem RenderScene_ignores_uninitialised (ind1 ind2 : OBJECT_MATERIAL)
    (s : SceneManager) :
  materials_defined s ->
  RenderScene ind1 s = RenderScene ind2 s.
Proof. intros; apply RenderScene_agrees; assumption. Qed.

(** *** Every texture the scene asks for is found once all are loaded *)
Lemma keeps_bind {A B} (P : SceneManager -> Prop) (m : M A) (f : A -> M B) :
  keeps P m -> (forall a, keeps P (f a)) -> keeps P (bind m f).
Proof.
  intros Hm Hf s b s' Hs Hrun. unfold bind in Hrun.
  destruct (m s) as [[a s1]|] eqn:Hms; [|discriminate].
  exact (Hf a _ _ _ (Hm _ _ _ Hs Hms) Hrun).
Qed.

Lemma scene_bound_received (cs : list shader_call) (s : SceneManager) :
  Forall sampler_bound cs -> scene_bound s -> scene_bound (shader_received cs s).
Proof.
  intros Hcs (Hok & Hloaded & Hlog). split; [exact Hok|]. split; [exact Hloaded|].
  intros log Hp. unfold shader_received in Hp. simpl in Hp.
  destruct (m_pShaderManager s) as [log0|] eqn:Hp0; [|discriminate].
  injection Hp as <-. apply Forall_app. split; [exact (Hlog _ Hp0) | exact Hcs].
Qed.

Lemma keeps_bound_SetTransformations scaleXYZ rx ry rz positionXYZ :
  keeps scene_bound (SetTransformations (T := T) scaleXYZ rx ry rz positionXYZ).
Proof.
  intros s a s' Hs Hrun. unfold SetTransformations in Hrun.
  rewrite if_shader_call in Hrun. injection Hrun as _ <-.
  apply scene_bound_received; [|exact Hs]. repeat constructor.
Qed.

Lemma keeps_bound_SetShaderColor r g b a :
  keeps scene_bound (SetShaderColor (T := T) r g b a).
Proof.
  intros s u s' Hs Hrun. unfold SetShaderColor in Hrun.
  destruct (m_pShaderManager s) as [log|] eqn:Hp.
  - rewrite (if_shader_present _ _ log Hp) in Hrun. unfold bind at 1 in Hrun.
    rewrite (shader_call_received _ s log Hp) in Hrun.
    rewrite (shader_call_received _ _ (log ++ [_])) in Hrun
      by (unfold shader_received; simpl; rewrite Hp; reflexivity).
    injection Hrun as _ <-.
    do 2 (apply scene_bound_received; [repeat constructor|]). exact Hs.
  - rewrite if_shader_null in Hrun by exact Hp. injection Hrun as _ <-. exact Hs.
Qed.

Lemma keeps_bound_SetShaderMaterial (ind : OBJECT_MATERIAL) tg :
  keeps scene_bound (SetShaderMaterial ind tg).
Proof.
  intros s u s' Hs Hrun. rewrite SetShaderMaterial_run in Hrun.
  destruct (m_objectMaterials s); [injection Hrun as _ <-; exact Hs|].
  cbv zeta in Hrun. destruct (m_pShaderManager s); [|discriminate].
  injection Hrun as _ <-. apply scene_bound_received; [|exact Hs].
  repeat constructor.
Qed.

Lemma keeps_bound_mesh c : keeps scene_bound (mesh (T := T) c).
Proof.
  intros s u s' (Hok & Hloaded & Hlog) [= _ <-].
  split; [exact Hok|]. split; [exact Hloaded | exact Hlog].
Qed.

Lemma keeps_bound_SetShaderTexture tg :
  tg ∈ scene_texture_tags -> keeps scene_bound (SetShaderTexture (T := T) tg).
Proof.
  intros Hin s u s' Hs Hrun. pose proof Hs as (Hok & Hloaded & _).
  unfold textures_loaded in Hloaded. rewrite Forall_forall in Hloaded.
  pose proof (Hloaded tg Hin) as Hreg.
  destruct (first_index tg (registered_tags s)) as [i|] eqn:Hi;
    [|apply first_index_None in Hi; contradiction].
  apply first_index_Some in Hi as [Hi Hbefore].
  rewrite (SetShaderTexture_run tg i s Hok Hi Hbefore) in Hrun.
  injection Hrun as _ <-. apply scene_bound_received; [|exact Hs].
  repeat constructor. simpl. lia.
Qed.

Lemma RenderScene_keeps_bound (ind : OBJECT_MATERIAL)
    (s s' : SceneManager) (u : unit) :
  registry_ok s -> textures_loaded s -> samplers_bound s ->
  RenderScene ind s = Some (u, s') ->
  samplers_bound s'.
Proof.
  intros Hok Hloaded Hlog Hrun.
  assert (Hkeeps : keeps scene_bound (RenderScene ind)).
  { unfold RenderScene. cbv zeta.
    repeat (apply keeps_bind;
      [ first [ apply keeps_bound_SetTransformations
              | apply keeps_bound_SetShaderColor
              | apply keeps_bound_SetShaderMaterial
              | apply keeps_bound_mesh
              | apply keeps_bound_SetShaderTexture; scene_tag ]
      | intros _ ]).
    apply keeps_bound_mesh. }
  apply (Hkeeps s u s'); [|exact Hrun]. split; [exact Hok|]. split; assumption.
Qed.

(** X16. When the nine texture tags the scene uses are registered, no call
    of [RenderScene] hands the shader the not-found sentinel as a sampler. *)
Theorem RenderScene_finds_every_texture (ind : OBJECT_MATERIAL)
    (s s' : SceneManager) (u : unit) :
  registry_ok s -> textures_loaded s -> samplers_bound s ->
  RenderScene ind s = Some (u, s') ->
  samplers_bound s'.
Proof. intros; eapply RenderScene_keeps_bound; eassumption. Qed.

(** ** Loading a sequence of files *)
Lemma CreateGLTexture_returns (filename tg : string) (s : SceneManager) :
  registry_ok s ->
  (load_ok filename = true -> m_loadedTextures s < TEXTURE_CAPACITY) ->
  exists s', CreateGLTexture filename tg s = Some (load_ok filename, s').
Proof.
  intros Hok Hroom.
  destruct (CreateGLTexture filename tg s) as [[b s']|] eqn:Hrun.
  - destruct (CreateGLTexture_effect _ _ _ _ _ Hok Hrun) as [-> _].
    exists s'. reflexivity.
  - apply CreateGLTexture_undefined in Hrun as [Hfull Hload]; [|exact Hok].
    specialize (Hroom Hload). lia.
Qed.

Lemma loaded_tags_cons (filename tg : string) (rest : list (string * string)) :
  loaded_tags ((filename, tg) :: rest) =
  (if load_ok filename then [tg] else []) ++ loaded_tags rest.
Proof.
  unfold Scene.loaded_tags. rewrite filter_cons. simpl.
  destruct (load_ok filename); simpl; try case_decide; try discriminate;
    try contradiction; reflexivity.
Qed.

Lemma load_textures_run (loads : list (string * string)) :
  forall s : SceneManager,
    registry_ok s ->
    m_loadedTextures s + Z.of_nat (length (loaded_tags loads))
      <= TEXTURE_CAPACITY ->
    exists s',
      load_textures loads s
        = Some ((fun l => load_ok (fst l)) <$> loads, s') /\
      registry_ok s' /\
      registered_tags s' = registered_tags s ++ loaded_tags loads /\
      m_objectMaterials s' = m_objectMaterials s /\
      m_pShaderManager s' = m_pShaderManager s /\
      m_basicMeshes s' = m_basicMeshes s.
Proof.
  induction loads as [|[filename tg] rest IH]; intros s Hok Hroom.
  - exists s. simpl. rewrite app_nil_r. split_and!; try reflexivity. exact Hok.
  - rewrite loaded_tags_cons, length_app in Hroom.
    destruct (CreateGLTexture_returns filename tg s Hok) as [s1 Hrun1].
    { intros Hload. rewrite Hload in Hroom. simpl in Hroom. lia. }
    destruct (CreateGLTexture_effect _ _ _ _ _ Hok Hrun1)
      as (_ & Hok1 & Hcount1 & Hreg1 & _ & Hmats1 & Hsh1 & Hmesh1).
    destruct (IH s1 Hok1) as (s' & Hrun & Hok' & Hreg' & Hmats' & Hsh' & Hmesh').
    { rewrite Hcount1. destruct (load_ok filename); simpl in *; lia. }
    exists s'. split_and!.
    + simpl. unfold bind at 1. rewrite Hrun1.
      unfold bind at 1. rewrite Hrun. reflexivity.
    + exact Hok'.
    + rewrite Hreg', loaded_tags_cons. unfold registered_tags at 1.
      rewrite Hreg1, fmap_app, <- app_assoc.
      destruct (load_ok filename); reflexivity.
    + congruence.
    + congruence.
    + congruence.
Qed.

(** X17. A sequence of loads that fits the registry always returns; each
    result tells whether that file was an RGB or RGBA image, the registered
    tags grow by the tags of those loads only, and so a lookup returns the
    number of textures registered before the first successful load under the
    tag, failed loads leaving no gap. *)
Theorem load_textures_skips_failures (loads : list (string * string))
    (s : SceneManager) :
  registry_ok s ->
  m_loadedTextures s + Z.of_nat (length (loaded_tags loads))
    <= TEXTURE_CAPACITY ->
  exists s',
    load_textures loads s = Some ((fun l => load_ok (fst l)) <$> loads, s') /\
    registered_tags s' = registered_tags s ++ loaded_tags loads /\
    forall tg,
      FindTextureSlot tg s'
      = Some (match first_index tg (registered_tags s ++ loaded_tags loads) with
              | Some i => Z.of_nat i
              | None => -1
              end, s').
Proof.
  intros Hok Hroom.
  destruct (load_textures_run loads s Hok Hroom) as (s' & Hrun & Hok' & Hreg & _).
  exists s'. split; [exact Hrun|]. split; [exact Hreg|].
  intros tg. rewrite FindTextureSlot_spec, Hreg by exact Hok'. reflexivity.
Qed.

(** ** Preparing the scene *)
Lemma LoadSceneTextures_eq (s : SceneManager) :
  LoadSceneTextures stbi_load gl_fresh_name s
  = bind (load_textures scene_loads) (fun _ => BindGLTextures) s.
Proof.
  unfold LoadSceneTextures, scene_loads. simpl. unfold bind, ret.
  repeat match goal with
         | |- context [Scene.CreateGLTexture ?a ?b ?f ?t ?st] =>
             destruct (Scene.CreateGLTexture a b f t st) as [[? ?]|];
             [|reflexivity]
         end.
  reflexivity.
Qed.

Lemma first_material_is_Some (tg : string) (mats : list OBJECT_MATERIAL) :
  tg ∈ (material_tag <$> mats) -> is_Some (first_material tg mats).
Proof.
  intros Hin. apply list_elem_of_fmap in Hin as (e & -> & He).
  unfold first_material.
  destruct (list_find_elem_of (fun m => material_tag m = material_tag e)
              mats e He eq_refl) as [[i x] Hfind].
  rewrite Hfind. eexists. reflexivity.
Qed.

Lemma DefineObjectMaterials_run (s : SceneManager) :
  exists s',
    DefineObjectMaterials s = Some (tt, s') /\
    material_tag <$> m_objectMaterials s'
      = (material_tag <$> m_objectMaterials s)
          ++ ["carbon"; "plastic"; "fabric"; "note"; "wood"; "pencil";
              "metal"; "rubber"]%string /\
    m_textureIDs s' = m_textureIDs s /\
    m_loadedTextures s' = m_loadedTextures s /\
    m_pShaderManager s' = m_pShaderManager s /\
    m_basicMeshes s' = m_basicMeshes s.
Proof.
  unfold DefineObjectMaterials. cbv [bind push_back modify]. cbv beta iota zeta.
  eexists. split; [reflexivity|]. simpl.
  split_and!; try reflexivity.
  rewrite !fmap_app, <- !app_assoc. apply (f_equal (app _)).
  vm_compute. reflexivity.
Qed.

Lemma SetupSceneLights_run (s : SceneManager) (log : list shader_call) :
  m_pShaderManager s = Some log ->
  exists cs, SetupSceneLights s = Some (tt, shader_received cs s) /\
             Forall sampler_bound cs.
Proof.
  intros Hp. unfold SetupSceneLights.
  eexists. split.
  - repeat (unfold bind at 1;
            erewrite shader_call_received
              by (first [exact Hp
                        | unfold shader_received; simpl; rewrite Hp; reflexivity]);
            rewrite ?shader_received_app).
    erewrite shader_call_received
      by (unfold shader_received; simpl; rewrite Hp; reflexivity).
    rewrite shader_received_app. reflexivity.
  - repeat constructor.
Qed.

Lemma PrepareScene_run (s : SceneManager) :
  ready s ->
  m_loadedTextures s + Z.of_nat (length (loaded_tags scene_loads))
    <= TEXTURE_CAPACITY ->
  exists s',
    PrepareScene stbi_load gl_fresh_name s = Some (tt, s') /\
    ready s' /\
    registered_tags s' = registered_tags s ++ loaded_tags scene_loads /\
    material_tag <$> m_objectMaterials s'
      = (material_tag <$> m_objectMaterials s)
          ++ ["carbon"; "plastic"; "fabric"; "note"; "wood"; "pencil";
              "metal"; "rubber"]%string /\
    m_basicMeshes s'
      = m_basicMeshes s
          ++ [LoadPlaneMesh; LoadPrismMesh; LoadBoxMesh; LoadCylinderMesh;
              LoadConeMesh; LoadTorusMesh; LoadBoxMesh2] /\
    (samplers_bound s -> samplers_bound s').
Proof.
  intros [Hok [log Hp]] Hroom.
  destruct (DefineObjectMaterials_run s)
    as (sA & HA & HmatsA & HarrA & HcountA & HshA & HmeshA).
  assert (HokA : registry_ok sA)
    by (unfold registry_ok; rewrite HarrA, HcountA; exact Hok).
  destruct (load_textures_run scene_loads sA HokA)
    as (sB & HB & HokB & HregB & HmatsB & HshB & HmeshB);
    [rewrite HcountA; exact Hroom|].
  destruct (BindGLTextures_run sB HokB) as (calls & HC & _).
  set (sC := set_gl_context (gl_context sB ++ calls) sB) in HC.
  destruct (SetupSceneLights_run sC log) as (cs & HD & Hcs).
  { unfold sC. simpl. congruence. }
  assert (HshC : m_pShaderManager sB = Some log) by congruence.
  exists (set_basicMeshes
            (m_basicMeshes sB
               ++ [LoadPlaneMesh; LoadPrismMesh; LoadBoxMesh; LoadCylinderMesh;
                   LoadConeMesh; LoadTorusMesh; LoadBoxMesh2])
            (shader_received cs sC)).
  split.
  - unfold PrepareScene. unfold bind at 1. rewrite HA.
    unfold bind at 1. rewrite LoadSceneTextures_eq.
    unfold bind at 1. rewrite HB, HC.
    unfold bind at 1. rewrite HD.
    unfold bind, mesh, modify. simpl. rewrite <- !app_assoc. reflexivity.
  - split; [|split; [|split; [|split]]].
    + split; [exact HokB|]. unfold sC. simpl. rewrite HshC.
      eexists. reflexivity.
    + change (registered_tags sB
              = registered_tags s ++ loaded_tags scene_loads).
      rewrite HregB. unfold registered_tags, registered.
      rewrite HarrA, HcountA. reflexivity.
    + simpl. rewrite HmatsB. exact HmatsA.
    + simpl. rewrite HmeshB, HmeshA. reflexivity.
    + intros Hbound log' Hlog'. unfold sC in Hlog'. simpl in Hlog'.
      rewrite HshC in Hlog'. injection Hlog' as <-.
      apply Forall_app. split; [exact (Hbound log Hp) | exact Hcs].
Qed.

Lemma scene_loads_room (s : SceneManager) :
  m_loadedTextures s + 9 <= TEXTURE_CAPACITY ->
  m_loadedTextures s + Z.of_nat (length (loaded_tags scene_loads))
    <= TEXTURE_CAPACITY.
Proof.
  intros Hroom.
  assert (length (loaded_tags scene_loads) <= 9)%nat; [|lia].
  unfold Scene.loaded_tags. rewrite length_fmap.
  etransitivity; [apply length_filter | reflexivity].
Qed.

Lemma materials_defined_tags (s : SceneManager) (others : list string) :
  material_tag <$> m_objectMaterials s
    = others ++ ["carbon"; "plastic"; "fabric"; "note"; "wood"; "pencil";
                 "metal"; "rubber"]%string ->
  materials_defined s.
Proof.
  intros Htags. unfold materials_defined, scene_material_tags.
  repeat (apply Forall_cons; split;
          [apply first_material_is_Some; rewrite Htags;
           apply elem_of_app; right; scene_tag |]).
  apply Forall_nil. exact I.
Qed.

(** X18. From a state with a shader manager, a well-formed registry and
    room for nine more textures, [PrepareScene] returns whatever the files
    are: it appends the eight materials, so that every material tag of the
    scene has an entry, and registers the tags of the scene textures that
    load, in order. *)
Theorem PrepareScene_prepares (s : SceneManager) :
  ready s ->
  m_loadedTextures s + 9 <= TEXTURE_CAPACITY ->
  exists s',
    PrepareScene stbi_load gl_fresh_name s = Some (tt, s') /\
    ready s' /\
    materials_defined s' /\
    registered_tags s' = registered_tags s ++ loaded_tags scene_loads /\
    length (m_objectMaterials s') = (length (m_objectMaterials s) + 8)%nat.
Proof.
  intros Hs Hroom.
  destruct (PrepareScene_run s Hs (scene_loads_room s Hroom))
    as (s' & Hrun & Hs' & Hreg & Hmats & _).
  exists s'. split_and!; try assumption.
  - exact (materials_defined_tags s' _ Hmats).
  - rewrite <- (length_fmap material_tag), Hmats, length_app, length_fmap.
    reflexivity.
Qed.

(** X19. On a scene manager constructed with a shader manager,
    [PrepareScene] followed by [RenderScene] returns for every decoder and
    every driver, and the rendering does not depend on the unassigned local
    of [SetShaderMaterial]. *)
Theorem PrepareScene_then_RenderScene (log : list shader_call)
    (context : list gl_call) (out : list console_line)
    (ind : OBJECT_MATERIAL) :
  exists s1 s2,
    PrepareScene stbi_load gl_fresh_name (new_SceneManager (Some log) context out)
      = Some (tt, s1) /\
    RenderScene ind s1 = Some (tt, s2) /\
    (forall ind', RenderScene ind' s1 = Some (tt, s2)).
Proof.
  assert (Hfresh : ready (new_SceneManager (T := T) (Some log) context out)).
  { split; [apply new_SceneManager_ok | eexists; reflexivity]. }
  destruct (PrepareScene_run _ Hfresh) as (s1 & Hrun1 & Hs1 & _ & Hmats & _).
  { apply scene_loads_room. simpl. unfold TEXTURE_CAPACITY. lia. }
  destruct (RenderScene_returns ind s1 Hs1) as (s2 & Hrun2 & _).
  pose proof (materials_defined_tags s1 [] Hmats) as Hdef.
  exists s1, s2. split_and!; try assumption.
  intros ind'.
  rewrite (RenderScene_agrees ind' ind s1 Hdef). exact Hrun2.
Qed.

Lemma loaded_tags_all (loads : list (string * string)) :
  Forall (fun l => load_ok (fst l) = true) loads ->
  loaded_tags loads = snd <$> loads.
Proof.
  induction loads as [|[filename tg] rest IH]; intros Hall; [reflexivity|].
  apply Forall_cons in Hall as [Hfirst Hrest]. simpl in Hfirst.
  rewrite loaded_tags_cons, Hfirst, (IH Hrest). reflexivity.
Qed.

(** X20. If the nine scene textures load and the shader manager has not
    been handed the sentinel before, then after [PrepareScene] the
    registered tags are exactly the nine tags the scene uses and
    [RenderScene] never hands the shader the sentinel as a sampler. *)
Theorem scene_textures_all_found (log : list shader_call)
    (context : list gl_call) (out : list console_line)
    (ind : OBJECT_MATERIAL) :
  Forall (fun l => load_ok (fst l) = true) scene_loads ->
  Forall sampler_bound log ->
  exists s1 s2,
    PrepareScene stbi_load gl_fresh_name (new_SceneManager (Some log) context out)
      = Some (tt, s1) /\
    registered_tags s1 = scene_texture_tags /\
    RenderScene ind s1 = Some (tt, s2) /\
    samplers_bound s2.
Proof.
  intros Hall Hlog.
  assert (Hfresh : ready (new_SceneManager (T := T) (Some log) context out)).
  { split; [apply new_SceneManager_ok | eexists; reflexivity]. }
  destruct (PrepareScene_run _ Hfresh) as (s1 & Hrun1 & Hs1 & Hreg & _ & _ & Hb).
  { apply scene_loads_room. simpl. unfold TEXTURE_CAPACITY. lia. }
  rewrite (loaded_tags_all _ Hall) in Hreg.
  destruct (new_SceneManager_ok (T := T) (Some log) context out) as [_ Hreg0].
  rewrite Hreg0 in Hreg. simpl in Hreg.
  destruct (RenderScene_returns ind s1 Hs1) as (s2 & Hrun2 & _).
  exists s1, s2. split_and!; try assumption.
  apply (RenderScene_keeps_bound ind s1 s2 tt); try assumption.
  - apply Hs1.
  - unfold textures_loaded. rewrite Hreg. apply Forall_forall. auto.
  - apply Hb. intros log' [= <-]. exact Hlog.
Qed.

(** *** Without a shader manager *)
Lemma keeps_no_shader_CreateGLTexture filename tg :
  keeps (T := T) no_shader (CreateGLTexture filename tg).
Proof.
  intros s b s' Hs Hrun. rewrite CreateGLTexture_run in Hrun.
  destruct (stbi_load true filename) as [img|].
  - cbv zeta in Hrun.
    destruct ((colorChannels img =? 3) || (colorChannels img =? 4)).
    + destruct (in_texture_array (m_loadedTextures s)); [|discriminate].
      injection Hrun as _ <-. exact Hs.
    + injection Hrun as _ <-. exact Hs.
  - injection Hrun as _ <-. exact Hs.
Qed.

Lemma keeps_for_from (P : SceneManager -> Prop) (body : Z -> M unit) (k : nat) :
  (forall i, keeps P (body i)) -> forall i, keeps P (for_from i k body).
Proof.
  intros Hbody. induction k as [|k IH]; intros i.
  - intros s u s' Hs [= _ <-]. exact Hs.
  - simpl. apply keeps_bind; [apply Hbody | intros _; apply IH].
Qed.

Lemma keeps_no_shader_LoadSceneTextures :
  keeps (T := T) no_shader (LoadSceneTextures stbi_load gl_fresh_name).
Proof.
  unfold LoadSceneTextures.
  repeat (apply keeps_bind;
          [apply keeps_no_shader_CreateGLTexture | intros _]).
  unfold BindGLTextures. apply keeps_bind.
  - intros s n s' Hs [= _ <-]. exact Hs.
  - intros n. apply keeps_for_from. intros i.
    apply keeps_bind; [intros s u s' Hs [= _ <-]; exact Hs|].
    intros _. apply keeps_bind.
    + intros s e s' Hs Hrun. unfold read_texture in Hrun.
      destruct (array_read _ _); [|discriminate]. injection Hrun as _ <-.
      exact Hs.
    + intros e s u s' Hs [= _ <-]. exact Hs.
Qed.

(** X21. Without a shader manager [PrepareScene] has no defined result,
    whatever the files are: [SetupSceneLights] calls through the null
    pointer. *)
Theorem PrepareScene_needs_shader_manager (s : SceneManager) :
  m_pShaderManager s = None ->
  PrepareScene stbi_load gl_fresh_name s = None.
Proof.
  intros Hnull. unfold PrepareScene.
  destruct (DefineObjectMaterials_run s) as (sA & HA & _ & _ & _ & HshA & _).
  unfold bind at 1. rewrite HA. unfold bind at 1.
  destruct (LoadSceneTextures stbi_load gl_fresh_name sA) as [[u sB]|] eqn:HB;
    [|reflexivity].
  assert (HnullB : m_pShaderManager sB = None).
  { apply (keeps_no_shader_LoadSceneTextures sA u sB); [|exact HB].
    unfold no_shader. congruence. }
  unfold bind at 1. rewrite (SetupSceneLights_null sB HnullB). reflexivity.
Qed.
End Behaviour.

(** ** The model matrix in exact arithmetic *)
Section ExactModel.




End ExactModel.

(** ** The behaviour on concrete inputs *)
Section BehaviourConcrete.
Import Examples.


(** A scene manager constructed without a shader manager, and one load list
    with a missing file and a greyscale image in it. *)
Lemma prepared_ok : registry_ok prepared.
Proof. apply prepared_ready. Qed.

Lemma prepared_materials : materials_defined prepared.
Proof.
  apply (materials_defined_tags prepared []). vm_compute. reflexivity.
Qed.

Lemma prepared_bound : textures_loaded prepared /\ samplers_bound prepared.
Proof.
  split.
  - unfold textures_loaded. rewrite prepared_tags.
    apply Forall_forall. auto.
  - intros log Hlog. vm_compute in Hlog. injection Hlog as <-.
    repeat constructor.
Qed.

Lemma CreateGLTexture_result_witness :
  exists s',
    CreateGLTexture decoder driver "textures/grey.png" "grey" prepared
      = Some (false, s') /\
    registered s' = registered prepared ++ [] /\
    m_loadedTextures s' = m_loadedTextures prepared + 0.
Proof.
  destruct (CreateGLTexture_returns decoder driver "textures/grey.png" "grey"
              prepared prepared_ok) as [s' Hrun]; [discriminate|].
  exists s'. split; [exact Hrun|].
  destruct (CreateGLTexture_result decoder driver "textures/grey.png" "grey"
              prepared s' _ prepared_ok Hrun) as (_ & _ & Hcount & Hreg & _).
  split; [exact Hreg | exact Hcount].
Defined.

Lemma CreateGLTexture_gl_calls_witness :
  exists s' calls,
    CreateGLTexture decoder driver "textures/grey.png" "grey" prepared
      = Some (false, s') /\
    gl_context s' = gl_context prepared ++ calls /\
    generated calls = 1%nat /\
    glGenerateMipmap GL_TEXTURE_2D ∉ calls.
Proof.
  destruct (CreateGLTexture_returns decoder driver "textures/grey.png" "grey"
              prepared prepared_ok) as [s' Hrun]; [discriminate|].
  destruct (CreateGLTexture_gl_calls decoder driver "textures/grey.png" "grey"
              prepared s' _ Hrun) as (calls & Hgl & _ & Hdec & _ & Hfalse).
  exists s', calls. split; [exact Hrun|]. split; [exact Hgl|].
  split; [apply Hdec; reflexivity | apply Hfalse; reflexivity].
Defined.

Lemma CreateGLTexture_undefined_iff_witness :
  CreateGLTexture decoder driver "textures/lamp.jpg" "lamp" full = None <->
  m_loadedTextures full = TEXTURE_CAPACITY /\
  load_ok decoder "textures/lamp.jpg" = true.
Proof.
  apply (CreateGLTexture_undefined_iff decoder driver "textures/lamp.jpg"
           "lamp" full).
  apply full_ok.
Defined.

Lemma FindTextureSlot_first_match_witness :
  exists slot,
    FindTextureSlot "metal" prepared = Some (slot, prepared) /\
    ((slot = -1 /\ "metal"%string ∉ registered_tags prepared) \/
     (0 <= slot < m_loadedTextures prepared /\
      registered_tags prepared !! Z.to_nat slot = Some "metal"%string /\
      forall j, (j < Z.to_nat slot)%nat ->
                registered_tags prepared !! j <> Some "metal"%string)).
Proof.
  apply (FindTextureSlot_first_match "metal" prepared). exact prepared_ok.
Defined.



Lemma glass_loads :
  exists s', CreateGLTexture decoder driver "textures/glass.png" "glass" prepared
             = Some (true, s').
Proof.
  apply (CreateGLTexture_returns decoder driver "textures/glass.png" "glass"
           prepared prepared_ok).
  intros _. vm_compute. reflexivity.
Qed.


Lemma CreateGLTexture_keeps_lookups_witness :
  exists s',
    CreateGLTexture decoder driver "textures/glass.png" "glass" prepared
      = Some (true, s') /\
    fst <$> FindTextureSlot "metal" s' = fst <$> FindTextureSlot "metal" prepared /\
    fst <$> FindTextureID "metal" s' = fst <$> FindTextureID "metal" prepared.
Proof.
  destruct glass_loads as [s' Hrun]. exists s'. split; [exact Hrun|].
  apply (CreateGLTexture_keeps_lookups decoder driver "textures/glass.png"
           "glass" "metal" prepared s' true prepared_ok Hrun).
  left. discriminate.
Defined.

Lemma BindGLTextures_units_witness :
  exists calls,
    BindGLTextures prepared
      = Some (tt, set_gl_context (gl_context prepared ++ calls) prepared) /\
    length calls = (2 * Z.to_nat (m_loadedTextures prepared))%nat /\
    forall (i : nat) (e : TEXTURE_INFO),
      registered prepared !! i = Some e ->
      calls !! (2 * i)%nat = Some (glActiveTexture (Z.of_nat i)) /\
      calls !! (2 * i + 1)%nat = Some (glBindTexture GL_TEXTURE_2D (ID e)).
Proof.
  apply (BindGLTextures_units prepared). exact prepared_ok.
Defined.

Lemma DestroyGLTextures_regenerates_witness :
  exists s',
    DestroyGLTextures driver prepared = Some (tt, s') /\
    registry_ok s' /\
    m_loadedTextures s' = m_loadedTextures prepared /\
    tag <$> m_textureIDs s' = tag <$> m_textureIDs prepared /\
    registered s' =
      zip_with with_ID
        (fresh_names driver (gl_context prepared)
                     (Z.to_nat (m_loadedTextures prepared)))
        (registered prepared) /\
    gl_context s' =
      gl_context prepared
        ++ (glGenTextures 1 <$>
              fresh_names driver (gl_context prepared)
                          (Z.to_nat (m_loadedTextures prepared))).
Proof.
  apply (DestroyGLTextures_regenerates driver prepared). exact prepared_ok.
Defined.

Lemma null_shader_manager_witness :
  (forall scaleXYZ rx ry rz positionXYZ,
      SetTransformations scaleXYZ rx ry rz positionXYZ
                         (new_SceneManager (T := R) None [] [])
      = Some (tt, new_SceneManager None [] [])) /\
  SetupSceneLights (new_SceneManager (T := R) None [] []) = None.
Proof.
  destruct (null_shader_manager garbage (new_SceneManager (T := R) None [] [])
              eq_refl) as (Htransform & _ & _ & _ & _ & Hlights).
  split; [exact Htransform | exact Hlights].
Defined.

Lemma SetShaderMaterial_sends_witness :
  exists source,
    source = default garbage
               (first_material "wood" (m_objectMaterials with_materials)) /\
    SetShaderMaterial garbage "wood" with_materials
    = Some (tt, shader_received
                  [setVec3Value "material.diffuseColor" (diffuseColor source);
                   setVec3Value "material.specularColor" (specularColor source);
                   setFloatValue "material.shininess" (shininess source)]
                  with_materials).
Proof.
  apply (SetShaderMaterial_sends garbage "wood" with_materials []).
  - reflexivity.
  - discriminate.
Defined.

Lemma FindMaterial_first_match_witness :
  exists e material',
    material_tag e = "carbon"%string /\
    FindMaterial "carbon" garbage with_materials
      = Some ((true, material'), with_materials) /\
    diffuseColor material' = diffuseColor e /\
    specularColor material' = specularColor e /\
    shininess material' = shininess e /\
    ambientColor material' = ambientColor garbage /\
    ambientStrength material' = ambientStrength garbage.
Proof.
  destruct (m_objectMaterials with_materials) as [|e after] eqn:Hmats;
    [discriminate|].
  assert (He : material_tag e = "carbon"%string)
    by (injection Hmats as <- _; reflexivity).
  exists e.
  destruct (FindMaterial_first_match "carbon" garbage e [] after with_materials
              Hmats (Forall_nil_2 _) He) as (material' & Hfound).
  exists material'. split; [exact He | exact Hfound].
Defined.

Lemma SetShaderTexture_registered_witness :
  SetShaderTexture "metal" prepared
  = Some (tt, shader_received [setIntValue "bUseTexture" 1;
                               setSampler2DValue "objectTexture" 4] prepared).
Proof.
  apply (SetShaderTexture_registered "metal" 4 prepared prepared_ok).
  - rewrite prepared_tags. reflexivity.
  - rewrite prepared_tags. intros j Hj.
    do 4 (destruct j as [|j]; [discriminate|]). lia.
Defined.

Lemma RenderScene_effects_witness :
  exists s',
    RenderScene garbage prepared = Some (tt, s') /\
    gl_context s' = gl_context prepared /\
    console s' = console prepared /\
    exists ds, m_basicMeshes s' = m_basicMeshes prepared ++ ds /\
               length ds = 44%nat /\ forallb is_draw ds = true.
Proof.
  destruct (RenderScene_returns garbage prepared prepared_ready)
    as (s' & Hrun & _).
  exists s'. split; [exact Hrun|].
  exact (RenderScene_effects garbage prepared s' tt Hrun).
Defined.

Lemma RenderScene_ignores_uninitialised_witness :
  RenderScene garbage prepared
  = RenderScene (copy_found garbage garbage) prepared.
Proof.
  apply (RenderScene_ignores_uninitialised garbage (copy_found garbage garbage)
           prepared prepared_materials).
Defined.

Lemma RenderScene_finds_every_texture_witness :
  exists s',
    RenderScene garbage prepared = Some (tt, s') /\ samplers_bound s'.
Proof.
  destruct (RenderScene_returns garbage prepared prepared_ready)
    as (s' & Hrun & _).
  exists s'. split; [exact Hrun|].
  exact (RenderScene_finds_every_texture garbage prepared s' tt prepared_ok
           (proj1 prepared_bound) (proj2 prepared_bound) Hrun).
Defined.

Lemma load_textures_skips_failures_witness :
  exists s',
    load_textures decoder driver
      [("textures/missing.jpg", "first"); ("textures/grey.png", "second");
       ("textures/wood.jpg", "third")]%string fresh
    = Some ([false; false; true], s') /\
    registered_tags s' = ["third"%string] /\
    FindTextureSlot "third" s' = Some (0, s') /\
    FindTextureSlot "first" s' = Some (-1, s').
Proof.
  destruct (load_textures_skips_failures decoder driver
              [("textures/missing.jpg", "first"); ("textures/grey.png", "second");
               ("textures/wood.jpg", "third")]%string fresh fresh_ok)
    as (s' & Hrun & Hreg & Hfind).
  { vm_compute. discriminate. }
  exists s'. split; [exact Hrun|]. split; [exact Hreg|].
  split; [exact (Hfind "third"%string) | exact (Hfind "first"%string)].
Defined.

Lemma fresh_ready : ready fresh.
Proof. split; [exact fresh_ok | eexists; reflexivity]. Qed.

Lemma PrepareScene_prepares_witness :
  exists s',
    PrepareScene decoder driver fresh = Some (tt, s') /\
    ready s' /\
    materials_defined s' /\
    registered_tags s' = registered_tags fresh ++ loaded_tags decoder scene_loads /\
    length (m_objectMaterials s') = (length (m_objectMaterials fresh) + 8)%nat.
Proof.
  apply (PrepareScene_prepares decoder driver fresh fresh_ready).
  vm_compute. discriminate.
Defined.

Lemma scene_textures_all_found_witness :
  exists s1 s2,
    PrepareScene decoder driver (new_SceneManager (Some []) [] [])
      = Some (tt, s1) /\
    registered_tags s1 = scene_texture_tags /\
    RenderScene garbage s1 = Some (tt, s2) /\
    samplers_bound s2.
Proof.
  apply (scene_textures_all_found decoder driver [] [] [] garbage).
  - unfold scene_loads. repeat (apply Forall_cons; split; [reflexivity|]).
    apply Forall_nil. exact I.
  - apply Forall_nil. exact I.
Defined.

Lemma PrepareScene_needs_shader_manager_witness :
  PrepareScene decoder driver (new_SceneManager (T := R) None [] []) = None.
Proof.
  apply (PrepareScene_needs_shader_manager decoder driver
           (new_SceneManager (T := R) None [] [])).
  reflexivity.
Defined.

End BehaviourConcrete.
